(** * biggerquery.dataset_manager: partitioned, templated BigQuery writes

    A shallow embedding of [src/biggerquery/dataset_manager.py] and the
    properties of its three layers:

    - [PartitionedDatasetManager] decorates table names with a [$YYYYMMDD]
      partition suffix,
    - [TemplatedDatasetManager] resolves table ids and renders the SQL text
      with [str.format],
    - [DatasetManager] submits jobs to the BigQuery client.

    Python strings are modelled as [string] (one [ascii] per character),
    dictionaries as [gmap string _], a value that is a [str] or [None] as
    [pyval], and a method as a function from the state of the objects to an
    outcome and a new state, so that a mutation made before an exception
    is raised stays visible afterwards. *)

From Stdlib Require Import Ascii String List.
From stdpp Require Import base option list gmap strings fin_maps.

Local Open Scope string_scope.

(** ** Python values and exceptions *)

(** A value that is either a [str] or [None]. *)
Inductive pyval : Type :=
| PyNone
| PyStr (s : string).

(** [str(v)], which is also [format(v, '')]. *)
Definition py_str (v : pyval) : string :=
  match v with
  | PyNone => "None"
  | PyStr s => s
  end.

(** Truth value: [None] and the empty string are false. *)
Definition truthy (v : pyval) : bool :=
  match v with
  | PyNone => false
  | PyStr EmptyString => false
  | PyStr (String _ _) => true
  end.

(** [a or b]. *)
Definition py_or (a b : pyval) : pyval := if truthy a then a else b.

(** The exceptions that the modelled code can raise. [JobError] is
    whatever the client raises when the engine fails a call.
    [Unmodelled] marks a format string that uses a conversion ([!r]), a
    format specification ([:>10]), an attribute ([a.b]) or an index
    ([a[0]]): the model says nothing about what Python does with it. *)
Inductive exn : Type :=
| KeyError (key : string)
| IndexError (msg : string)
| ValueError (msg : string)
| TypeError (msg : string)
| JobError (msg : string)
| Unmodelled.

Inductive result (A : Type) : Type :=
| Ok (a : A)
| Raise (e : exn).
Arguments Ok {A} a.
Arguments Raise {A} e.

Definition result_map {A B : Type} (f : A -> B) (r : result A) : result B :=
  match r with
  | Ok a => Ok (f a)
  | Raise e => Raise e
  end.

(** ** The string methods used by the module *)

Module Str.

Definition is_char (c d : ascii) : bool := Ascii.eqb c d.

(** [s[:n]] for a non-negative [n]. *)
Fixpoint slice_to (n : nat) (s : string) : string :=
  match n, s with
  | S k, String c s' => String c (slice_to k s')
  | _, _ => EmptyString
  end.

(** [s.replace(old, new)] for a non-empty [old]: occurrences are found
    from the left and do not overlap; [skip] counts the characters of
    the occurrence just replaced that are still to be passed over. *)
Fixpoint replace_from (old new : string) (skip : nat) (s : string) : string :=
  match s with
  | EmptyString => EmptyString
  | String c s' =>
      match skip with
      | S k => replace_from old new k s'
      | O =>
          if String.prefix old s
          then new +:+ replace_from old new (String.length old - 1) s'
          else String c (replace_from old new 0 s')
      end
  end.

(** [s.replace('', new)]: [new] goes before every character and at the
    end. *)
Fixpoint replace_empty (new s : string) : string :=
  match s with
  | EmptyString => new
  | String c s' => new +:+ String c (replace_empty new s')
  end.

(** [s.replace(old, new)]. *)
Definition replace (old new s : string) : string :=
  match old with
  | EmptyString => replace_empty new s
  | String _ _ => replace_from old new 0 s
  end.

(** [s.split(sep)] for a separator of one character; the list is never
    empty. *)
Fixpoint split (sep : ascii) (s : string) : list string :=
  match s with
  | EmptyString => [EmptyString]
  | String c s' =>
      if is_char c sep then EmptyString :: split sep s'
      else match split sep s' with
           | h :: t => String c h :: t
           | [] => [String c EmptyString]
           end
  end.

(** [l[i]] on a list, raising [IndexError] out of range. *)
Definition index {A : Type} (l : list A) (i : nat) : result A :=
  match l !! i with
  | Some x => Ok x
  | None => Raise (IndexError "list index out of range")
  end.

Definition is_digit (c : ascii) : bool :=
  let n := nat_of_ascii c in (48 <=? n)%nat && (n <=? 57)%nat.

Fixpoint all_chars (p : ascii -> bool) (s : string) : bool :=
  match s with
  | EmptyString => true
  | String c s' => p c && all_chars p s'
  end.

Fixpoint has_char (d : ascii) (s : string) : bool :=
  match s with
  | EmptyString => false
  | String c s' => is_char c d || has_char d s'
  end.

End Str.

(** ** [str.format] with keyword arguments only

    The format string is read from the left, as CPython's
    [MarkupIterator] reads it: text is copied, a doubled brace stands
    for one brace, and [{name}] is replaced by [str] of the keyword
    argument [name]. The first error met is raised: a brace without its
    pair ([ValueError]), a name that is no keyword ([KeyError]), an empty
    or numeric name ([IndexError], as there are no positional
    arguments). A value that is substituted is not read again. *)

Module Format.

(** Where the scanner is in the format string. *)
Inductive scan : Type :=
| Text                    (* copying literal text *)
| Open                    (* just after a brace that opens *)
| Close                   (* just after a brace that closes, in text *)
| Field (name : string).  (* inside a replacement field *)

(** The value of the replacement field [name]. An empty name or a
    number is a positional argument, and there are none ([IndexError];
    CPython raises [ValueError] instead when the number overflows). *)
Definition resolve (kwargs : gmap string pyval) (name : string) : result string :=
  if Str.has_char "." name then Raise Unmodelled
  else if Str.all_chars Str.is_digit name
  then Raise (IndexError "Replacement index out of range for positional args tuple")
  else match kwargs !! name with
       | Some v => Ok (py_str v)
       | None => Raise (KeyError name)
       end.

Definition snoc (s : string) (c : ascii) : string := s +:+ String c EmptyString.

Fixpoint format_from (st : scan) (kwargs : gmap string pyval) (s : string)
  : result string :=
  match s with
  | EmptyString =>
      match st with
      | Text => Ok EmptyString
      | Open => Raise (ValueError "Single '{' encountered in format string")
      | Close => Raise (ValueError "Single '}' encountered in format string")
      | Field _ => Raise (ValueError "expected '}' before end of string")
      end
  | String c s' =>
      let in_field (name : string) : result string :=
        if Str.is_char c "{" then Raise (ValueError "unexpected '{' in field name")
        else if Str.is_char c "}" then
          match resolve kwargs name with
          | Ok v => result_map (String.append v) (format_from Text kwargs s')
          | Raise e => Raise e
          end
        else if Str.is_char c "[" || Str.is_char c ":" || Str.is_char c "!"
        then Raise Unmodelled
        else format_from (Field (snoc name c)) kwargs s' in
      match st with
      | Text =>
          if Str.is_char c "{" then format_from Open kwargs s'
          else if Str.is_char c "}" then format_from Close kwargs s'
          else result_map (String c) (format_from Text kwargs s')
      | Open =>
          if Str.is_char c "{" then result_map (String c) (format_from Text kwargs s')
          else in_field EmptyString
      | Close =>
          if Str.is_char c "}" then result_map (String c) (format_from Text kwargs s')
          else Raise (ValueError "Single '}' encountered in format string")
      | Field name => in_field name
      end
  end.

(** [s.format] called with the keyword arguments [kwargs]. *)
Definition format (s : string) (kwargs : gmap string pyval) : result string :=
  format_from Text kwargs s.

End Format.

(** ** Module-level functions *)

(** [get_partition_from_run_datetime_or_none]: the function falls off its
    end, returning [None], when [run_datetime] is [None]. *)
Definition get_partition_from_run_datetime_or_none (run_datetime : pyval) : pyval :=
  match run_datetime with
  | PyNone => PyNone
  | PyStr s => PyStr (Str.replace "-" "" (Str.slice_to 10 s))
  end.

(** ** Methods as state transformers *)

(** A method run on an object of type [S]: an outcome and the object
    afterwards. The state is kept when an exception is raised. *)
Definition M (S A : Type) : Type := S -> result A * S.

Definition ret {S A : Type} (a : A) : M S A := fun s => (Ok a, s).

Definition raise {S A : Type} (e : exn) : M S A := fun s => (Raise e, s).

Definition bind {S A B : Type} (m : M S A) (k : A -> M S B) : M S B :=
  fun s =>
    match m s with
    | (Ok a, s') => k a s'
    | (Raise e, s') => (Raise e, s')
    end.

Definition lift {S A : Type} (r : result A) : M S A := fun s => (r, s).

Definition modify {S : Type} (f : S -> S) : M S unit := fun s => (Ok tt, f s).

Definition gets {S A : Type} (f : S -> A) : M S A := fun s => (Ok (f s), s).

(** A method of an attribute, run from the object that holds it. *)
Definition zoom {S T A : Type} (get : S -> T) (set : T -> S -> S) (m : M T A)
  : M S A :=
  fun s => let (r, t) := m (get s) in (r, set t s).

Declare Scope method_scope.
Delimit Scope method_scope with method.
Notation "x <- m ;; k" := (bind m (fun x => k))
  (at level 100, m at next level, right associativity) : method_scope.
Notation "m ;;; k" := (bind m (fun _ => k))
  (at level 100, right associativity) : method_scope.
Local Open Scope method_scope.

(** ** The BigQuery client

    The client is the remote engine seen from the module: [respond] is
    what the engine answers to a call, given the calls made before, and
    [calls] records every call made, oldest first. *)

Inductive cell : Type :=
| Int (n : Z)
| Txt (s : string).

Definition row : Type := list (string * cell).

(** [bigquery.QueryJobConfig]; an attribute never assigned is [None]. *)
Record QueryJobConfig : Type := {
  use_legacy_sql : option bool;
  allow_large_results : option bool;
  destination : option string;
  write_disposition : option string;
  default_dataset : option string
}.

(** [bigquery.Dataset]. *)
Record Dataset : Type := {
  dataset_project : string;
  dataset_name : string;
  location : string
}.

(** The library's [Dataset(dataset_id)] for an id [project.dataset]; it
    refuses an id with another number of parts. *)
Definition Dataset_of_id (id : string) : result Dataset :=
  match Str.split "." id with
  | [p; d] => Ok {| dataset_project := p; dataset_name := d; location := "" |}
  | _ => Raise (ValueError "dataset_id must be of the form project.dataset")
  end.

(** [dataset.location = l]. *)
Definition set_location (l : string) (d : Dataset) : Dataset :=
  {| dataset_project := dataset_project d; dataset_name := dataset_name d;
     location := l |}.

(** The library's [Dataset.full_dataset_id], [project:dataset]. *)
Definition full_dataset_id (d : Dataset) : string :=
  dataset_project d +:+ ":" +:+ dataset_name d.

Inductive call : Type :=
| Query (sql : string) (job_config : option QueryJobConfig)
| CreateDataset (dataset : Dataset) (exists_ok : bool)
| DeleteDataset (dataset : Dataset) (delete_contents not_found_ok : bool).

Inductive reply : Type :=
| Failed (msg : string)
| Rows (rows : list row).

Record Client : Type := {
  project : string;
  respond : list call -> call -> reply;
  calls : list call
}.

Module BigQuery.

(** The client once it has made the call [c]. *)
Definition record (c : call) (cl : Client) : Client :=
  {| project := project cl; respond := respond cl; calls := calls cl ++ [c] |}.

(** Any call: it is recorded, and it raises when the engine fails it. *)
Definition request (c : call) : M Client (list row) :=
  fun cl =>
    match respond cl (calls cl) c with
    | Failed msg => (Raise (JobError msg), record c cl)
    | Rows rs => (Ok rs, record c cl)
    end.

(** [client.query(sql, job_config=job_config).result()]. *)
Definition query (sql : string) (job_config : option QueryJobConfig)
  : M Client (list row) :=
  request (Query sql job_config).

(** A call that submits a write: a query with a destination. *)
Definition is_write (c : call) : bool :=
  match c with
  | Query _ (Some cfg) => bool_decide (is_Some (destination cfg))
  | _ => false
  end.

(** [rows.to_dataframe()[column].iloc[0] > 0]. *)
Definition first_positive (column : string) (rs : list row) : result bool :=
  match rs with
  | [] => Raise (IndexError "single positional indexer is out-of-bounds")
  | r :: _ =>
      match List.find (fun kv => String.eqb (fst kv) column) r with
      | Some (_, Int n) => Ok (0 <? n)%Z
      | Some (_, Txt _) => Raise (TypeError "'>' not supported between instances of 'str' and 'int'")
      | None => Raise (KeyError column)
      end
  end.

End BigQuery.

(** ** [DatasetManager] *)

Module DatasetManager.

(** The logger is left out: it does not change what the methods do
    to the client or return. *)
Record t : Type := {
  bigquery_client : Client;
  dataset : Dataset;
  dataset_id : string
}.

Definition set_client (c : Client) (self : t) : t :=
  {| bigquery_client := c; dataset := dataset self; dataset_id := dataset_id self |}.

Definition client {A : Type} (m : M Client A) : M t A :=
  zoom bigquery_client set_client m.

Definition __init__ (bigquery_client : Client) (dataset : Dataset) : t :=
  {| bigquery_client := bigquery_client;
     dataset := dataset;
     dataset_id := Str.replace ":" "." (full_dataset_id dataset) |}.

(** The job configuration that [write] builds. *)
Definition write_job_config (table_id mode : string) : QueryJobConfig :=
  {| use_legacy_sql := Some false;
     allow_large_results := Some true;
     destination := Some table_id;
     write_disposition := Some mode;
     default_dataset := None |}.

Definition write (table_id sql mode : string) : M t unit :=
  let job_config := write_job_config table_id mode in
  client (BigQuery.query sql (Some job_config)) ;;; ret tt.

Definition write_tmp (table_id sql : string) : M t unit :=
  write table_id sql "WRITE_TRUNCATE".

Definition table_exists_template : string :=
"
            SELECT count(*) as table_exists
            FROM `{dataset_id}.__TABLES__`
            WHERE table_id='{table_name}'
            ".

Definition table_exists (table_name : string) : M t bool :=
  d <- gets dataset_id ;;
  sql <- lift (Format.format table_exists_template
                 (<["dataset_id" := PyStr d]> {["table_name" := PyStr table_name]})) ;;
  rs <- client (BigQuery.query sql None) ;;
  lift (BigQuery.first_positive "table_exists" rs).

(** [table_id.split('$')[0].split('.')[2]]. *)
Definition base_table_name (table_id : string) : result string :=
  match Str.index (Str.split "$" table_id) 0 with
  | Ok unsuffixed => Str.index (Str.split "." unsuffixed) 2
  | Raise e => Raise e
  end.

Definition table_exists_or_error (table_id : string) : M t unit :=
  table_name <- lift (base_table_name table_id) ;;
  found <- table_exists table_name ;;
  if negb found
  then msg <- lift (Format.format "Table {id} does not exist"
                      {["id" := PyStr table_id]}) ;;
       raise (ValueError msg)
  else ret tt.

Definition write_truncate (table_id sql : string) : M t unit :=
  table_exists_or_error table_id ;;;
  write table_id sql "WRITE_TRUNCATE".

Definition write_append (table_id sql : string) : M t unit :=
  table_exists_or_error table_id ;;;
  write table_id sql "WRITE_APPEND".

Definition create_table (create_query : string) : M t unit :=
  d <- gets dataset ;;
  let job_config :=
    {| use_legacy_sql := Some false;
       allow_large_results := None;
       destination := None;
       write_disposition := None;
       default_dataset := Some (full_dataset_id d) |} in
  client (BigQuery.query create_query (Some job_config)) ;;; ret tt.

Definition collect (sql : string) : M t (list row) :=
  client (BigQuery.query sql None).

Definition remove_dataset : M t unit :=
  d <- gets dataset ;;
  client (BigQuery.request (DeleteDataset d true true)) ;;; ret tt.

End DatasetManager.

(** ** [TemplatedDatasetManager] *)

(** [d.update(other)]: the entries of [other] replace those of [d]. *)
Definition dict_update {V : Type} (d other : gmap string V) : gmap string V :=
  other ∪ d.

Module TemplatedDatasetManager.

Record t : Type := {
  dataset_manager : DatasetManager.t;
  internal_tables : gmap string string;
  external_tables : gmap string string;
  extras : gmap string string;
  run_datetime : pyval
}.

Definition set_dataset_manager (d : DatasetManager.t) (self : t) : t :=
  {| dataset_manager := d;
     internal_tables := internal_tables self;
     external_tables := external_tables self;
     extras := extras self;
     run_datetime := run_datetime self |}.

Definition set_internal_tables (m : gmap string string) (self : t) : t :=
  {| dataset_manager := dataset_manager self;
     internal_tables := m;
     external_tables := external_tables self;
     extras := extras self;
     run_datetime := run_datetime self |}.

Definition inner {A : Type} (m : M DatasetManager.t A) : M t A :=
  zoom dataset_manager set_dataset_manager m.

(** The signature of the three write methods of [DatasetManager]. *)
Definition writer : Type := string -> string -> M DatasetManager.t unit.

Definition full_table_id_in (dm : DatasetManager.t) (table_name : string) : string :=
  (DatasetManager.dataset_id dm +:+ ".") +:+ table_name.

Definition create_full_table_id (self : t) (table_name : string) : string :=
  full_table_id_in (dataset_manager self) table_name.

Definition create_table_id (self : t) (table_name : string) : string :=
  let table_name_without_partition := hd EmptyString (Str.split "$" table_name) in
  Str.replace table_name_without_partition
    (create_full_table_id self table_name_without_partition)
    table_name.

(** The dictionary comprehension of [__init__] over the list of names. *)
Definition __init__ (dataset_manager : DatasetManager.t)
    (internal_tables : list string) (external_tables extras : gmap string string)
    (run_datetime : pyval) : t :=
  {| dataset_manager := dataset_manager;
     internal_tables :=
       foldl (fun d t => <[t := full_table_id_in dataset_manager t]> d) ∅ internal_tables;
     external_tables := external_tables;
     extras := extras;
     run_datetime := run_datetime |}.

Definition template_variables (self : t) (custom_run_datetime : pyval)
  : gmap string pyval :=
  let result : gmap string pyval := ∅ in
  let result := dict_update result (PyStr <$> internal_tables self) in
  let result := dict_update result (PyStr <$> external_tables self) in
  let result := dict_update result (PyStr <$> extras self) in
  <["dt" := py_or custom_run_datetime (run_datetime self)]> result.

Definition write (write_callable : writer) (table_name sql : string)
    (custom_run_datetime : pyval) : M t unit :=
  table_id <- gets (fun self => create_table_id self table_name) ;;
  vars <- gets (fun self => template_variables self custom_run_datetime) ;;
  rendered <- lift (Format.format sql vars) ;;
  inner (write_callable table_id rendered).

Definition write_truncate (table_name sql : string) (custom_run_datetime : pyval)
  : M t unit :=
  write DatasetManager.write_truncate table_name sql custom_run_datetime.

Definition write_append (table_name sql : string) (custom_run_datetime : pyval)
  : M t unit :=
  write DatasetManager.write_append table_name sql custom_run_datetime.

Definition write_tmp (table_name sql : string) (custom_run_datetime : pyval)
  : M t unit :=
  modify (fun self =>
    set_internal_tables
      (<[table_name := create_table_id self table_name]> (internal_tables self)) self) ;;;
  write DatasetManager.write_tmp table_name sql custom_run_datetime.

Definition collect (sql : string) (custom_run_datetime : pyval) : M t (list row) :=
  vars <- gets (fun self => template_variables self custom_run_datetime) ;;
  rendered <- lift (Format.format sql vars) ;;
  inner (DatasetManager.collect rendered).

Definition remove_dataset : M t unit := inner DatasetManager.remove_dataset.

Definition create_table (create_query : string) : M t unit :=
  inner (DatasetManager.create_table create_query).

Definition table_exists (table_name : string) : M t bool :=
  inner (DatasetManager.table_exists table_name).

End TemplatedDatasetManager.

(** ** [PartitionedDatasetManager] *)

Module PartitionedDatasetManager.

Record t : Type := {
  _dataset_manager : TemplatedDatasetManager.t;
  partition : pyval
}.

Definition set_dataset_manager (d : TemplatedDatasetManager.t) (self : t) : t :=
  {| _dataset_manager := d; partition := partition self |}.

Definition inner {A : Type} (m : M TemplatedDatasetManager.t A) : M t A :=
  zoom _dataset_manager set_dataset_manager m.

(** The signature of the three write methods of
    [TemplatedDatasetManager]. *)
Definition writer : Type :=
  string -> string -> pyval -> M TemplatedDatasetManager.t unit.

Definition __init__ (templated_dataset_manager : TemplatedDatasetManager.t)
    (partition : pyval) : t :=
  {| _dataset_manager := templated_dataset_manager; partition := partition |}.

Definition _write (write_callable : writer) (table_name sql : string)
    (partitioned : bool) (custom_run_datetime : pyval) : M t unit :=
  let custom_partition := get_partition_from_run_datetime_or_none custom_run_datetime in
  table_name <-
    (if partitioned
     then base <- gets partition ;;
          suffix <- lift (Format.format "${partition}"
                            {["partition" := py_or custom_partition base]}) ;;
          ret (table_name +:+ suffix)
     else ret table_name) ;;
  inner (write_callable table_name sql custom_run_datetime).

Definition write_truncate (table_name sql : string) (partitioned : bool)
    (custom_run_datetime : pyval) : M t unit :=
  _write TemplatedDatasetManager.write_truncate table_name sql partitioned
    custom_run_datetime.

Definition write_append (table_name sql : string) (partitioned : bool)
    (custom_run_datetime : pyval) : M t unit :=
  _write TemplatedDatasetManager.write_append table_name sql partitioned
    custom_run_datetime.

Definition write_tmp (table_name sql : string) (custom_run_datetime : pyval)
  : M t unit :=
  _write TemplatedDatasetManager.write_tmp table_name sql false custom_run_datetime.

Definition collect (sql : string) (custom_run_datetime : pyval) : M t (list row) :=
  inner (TemplatedDatasetManager.collect sql custom_run_datetime).

Definition create_table (create_query : string) : M t unit :=
  inner (TemplatedDatasetManager.create_table create_query).

Definition run_datetime_str (self : t) : pyval :=
  TemplatedDatasetManager.run_datetime (_dataset_manager self).

Definition remove_dataset : M t unit :=
  inner TemplatedDatasetManager.remove_dataset.

Definition _table_exists (table_name : string) : M t bool :=
  inner (TemplatedDatasetManager.table_exists table_name).

End PartitionedDatasetManager.

(** ** The factory *)

(** [create_dataset]: the client creates the dataset, or finds it. *)
Definition create_dataset (dataset_name : string) (location : string)
  : M Client Dataset :=
  p <- gets project ;;
  id <- lift (Format.format "{project_id}.{dataset_name}"
               (<["project_id" := PyStr p]> {["dataset_name" := PyStr dataset_name]})) ;;
  dataset <- lift (Dataset_of_id id) ;;
  let dataset := set_location location dataset in
  BigQuery.request (CreateDataset dataset true) ;;;
  ret dataset.

(** [create_dataset_manager], given the client that
    [bigquery.Client(project, credentials, location)] builds and the
    dataset name already chosen (the caller's, or a random one). An
    absent [internal_tables], [external_tables] or [extras] is empty. *)
Definition create_dataset_manager (client : Client) (runtime : pyval)
    (dataset_name : string) (internal_tables : list string)
    (external_tables extras : gmap string string) (location : string)
  : result (string * PartitionedDatasetManager.t) :=
  match create_dataset dataset_name location client with
  | (Ok dataset, client) =>
      let core_dataset_manager := DatasetManager.__init__ client dataset in
      let templated_dataset_manager :=
        TemplatedDatasetManager.__init__ core_dataset_manager internal_tables
          external_tables extras runtime in
      Ok (Str.replace ":" "." (full_dataset_id dataset),
          PartitionedDatasetManager.__init__ templated_dataset_manager
            (get_partition_from_run_datetime_or_none runtime))
  | (Raise e, _) => Raise e
  end.

(** ** Sessions: the calls a user makes on one manager *)

Inductive operation : Type :=
| WriteTruncate (table_name sql : string) (partitioned : bool) (custom_run_datetime : pyval)
| WriteAppend (table_name sql : string) (partitioned : bool) (custom_run_datetime : pyval)
| WriteTmp (table_name sql : string) (custom_run_datetime : pyval)
| Collect (sql : string) (custom_run_datetime : pyval)
| CreateTable (create_query : string)
| RemoveDataset
| TableExists (table_name : string)
| RunDatetimeStr.

Definition discard {S A : Type} (m : M S A) : M S unit := m ;;; ret tt.

(** One call; what it returns is dropped, what it raises is kept. *)
Definition perform (o : operation) : M PartitionedDatasetManager.t unit :=
  match o with
  | WriteTruncate n q p c => PartitionedDatasetManager.write_truncate n q p c
  | WriteAppend n q p c => PartitionedDatasetManager.write_append n q p c
  | WriteTmp n q c => PartitionedDatasetManager.write_tmp n q c
  | Collect q c => discard (PartitionedDatasetManager.collect q c)
  | CreateTable q => PartitionedDatasetManager.create_table q
  | RemoveDataset => PartitionedDatasetManager.remove_dataset
  | TableExists n => discard (PartitionedDatasetManager._table_exists n)
  | RunDatetimeStr => discard (gets PartitionedDatasetManager.run_datetime_str)
  end.

(** The manager after a call, whether it returned or raised: the caller
    may catch the exception and go on with the same manager. *)
Definition after (o : operation) (self : PartitionedDatasetManager.t)
  : PartitionedDatasetManager.t :=
  snd (perform o self).

Definition after_all (os : list operation) (self : PartitionedDatasetManager.t)
  : PartitionedDatasetManager.t :=
  foldl (fun s o => after o s) self os.

(** Projections used in the statements. *)
Definition templated (self : PartitionedDatasetManager.t) : TemplatedDatasetManager.t :=
  PartitionedDatasetManager._dataset_manager self.

Definition client_of (self : PartitionedDatasetManager.t) : Client :=
  DatasetManager.bigquery_client
    (TemplatedDatasetManager.dataset_manager (templated self)).

Definition aliases (self : PartitionedDatasetManager.t) : gmap string string :=
  TemplatedDatasetManager.internal_tables (templated self).

Definition session_dataset_id (self : PartitionedDatasetManager.t) : string :=
  DatasetManager.dataset_id (TemplatedDatasetManager.dataset_manager (templated self)).

(** ** Predicates used in the statements *)

(** No brace occurs in [s]. *)
Definition brace_free (s : string) : bool :=
  negb (Str.has_char "{" s) && negb (Str.has_char "}" s).



(** A field name made of a key only: it is not a number and has no
    character that starts an attribute, an index, a conversion or a
    format specification, and no brace. *)
Definition key_name (name : string) : bool :=
  negb (Str.all_chars Str.is_digit name)
  && Str.all_chars
       (fun c => negb (Str.is_char c "{" || Str.is_char c "}" || Str.is_char c "["
                       || Str.is_char c ":" || Str.is_char c "!" || Str.is_char c "."))
       name.




(** ** What a call submits *)

(** The calls made between two states of a client. *)
Definition submitted (before after : Client) : list call :=
  drop (length (calls before)) (calls after).

(** The writes among some calls. *)
Definition writes (cs : list call) : list call := List.filter BigQuery.is_write cs.

Definition destination_of (c : call) : option string :=
  match c with
  | Query _ (Some cfg) => destination cfg
  | _ => None
  end.


Definition sql_of (c : call) : option string :=
  match c with
  | Query sql _ => Some sql
  | _ => None
  end.

(** The writes that a method of [DatasetManager] submits. *)
Definition writes_by {A : Type} (m : M DatasetManager.t A) (self : DatasetManager.t)
  : list call :=
  writes (submitted (DatasetManager.bigquery_client self)
            (DatasetManager.bigquery_client (snd (m self)))).

(** The writes that a call on the manager submits. *)
Definition writes_in (o : operation) (self : PartitionedDatasetManager.t) : list call :=
  writes (submitted (client_of self) (client_of (after o self))).

(** ** Run datetimes and partitions *)

(** [s] starts with a date, [YYYY-MM-DD]: both formats of a run
    datetime do. *)
Definition date_prefixed (s : string) : bool :=
  match s with
  | String y1 (String y2 (String y3 (String y4 (String h1
      (String m1 (String m2 (String h2 (String d1 (String d2 _))))))))) =>
      Str.is_digit y1 && Str.is_digit y2 && Str.is_digit y3 && Str.is_digit y4
      && Str.is_char h1 "-" && Str.is_digit m1 && Str.is_digit m2
      && Str.is_char h2 "-" && Str.is_digit d1 && Str.is_digit d2
  | _ => false
  end.

Definition eight_digits (s : string) : bool :=
  (String.length s =? 8)%nat && Str.all_chars Str.is_digit s.

(** A destination is a table id with no partition, or with a partition
    of eight digits behind the dollar sign. *)
Definition well_suffixed (destination : string) : bool :=
  match Str.split "$" destination with
  | [_] => true
  | [_; p] => eight_digits p
  | _ => false
  end.

(** ** Relations between the states before and after a method *)

(** A method keeps [R] when the state after it is related to the state
    before it, whatever the outcome. *)
Definition keeps {S A : Type} (R : S -> S -> Prop) (m : M S A) : Prop :=
  forall s, R s (snd (m s)).

(** The client only makes more calls. *)
Definition client_grows (cl cl' : Client) : Prop :=
  project cl' = project cl
  /\ respond cl' = respond cl
  /\ exists new, calls cl' = (calls cl ++ new)%list.

(** The client makes more calls, none of them a write. *)
Definition client_reads (cl cl' : Client) : Prop :=
  project cl' = project cl
  /\ respond cl' = respond cl
  /\ exists new, calls cl' = (calls cl ++ new)%list /\ writes new = [].

Definition dataset_manager_frame (R : Client -> Client -> Prop)
    (d d' : DatasetManager.t) : Prop :=
  DatasetManager.dataset d' = DatasetManager.dataset d
  /\ DatasetManager.dataset_id d' = DatasetManager.dataset_id d
  /\ R (DatasetManager.bigquery_client d) (DatasetManager.bigquery_client d').

(** What no method of [TemplatedDatasetManager] changes; the aliases
    are related by [I]. *)
Definition templated_frame (I : gmap string string -> gmap string string -> Prop)
    (t t' : TemplatedDatasetManager.t) : Prop :=
  TemplatedDatasetManager.external_tables t' = TemplatedDatasetManager.external_tables t
  /\ TemplatedDatasetManager.extras t' = TemplatedDatasetManager.extras t
  /\ TemplatedDatasetManager.run_datetime t' = TemplatedDatasetManager.run_datetime t
  /\ I (TemplatedDatasetManager.internal_tables t) (TemplatedDatasetManager.internal_tables t')
  /\ dataset_manager_frame client_grows
       (TemplatedDatasetManager.dataset_manager t)
       (TemplatedDatasetManager.dataset_manager t').

Definition session_frame (I : gmap string string -> gmap string string -> Prop)
    (p p' : PartitionedDatasetManager.t) : Prop :=
  PartitionedDatasetManager.partition p' = PartitionedDatasetManager.partition p
  /\ templated_frame I (templated p) (templated p').

(** The aliases only grow: no name is lost. *)
Definition aliases_grow (m m' : gmap string string) : Prop := dom m ⊆ dom m'.

(** The aliases are unchanged. *)
Definition aliases_same (m m' : gmap string string) : Prop := m' = m.

Definition is_write_tmp (o : operation) : bool :=
  match o with
  | WriteTmp _ _ _ => true
  | _ => false
  end.

(** ** A stub engine and sample sessions *)

(** The query that [table_exists] sends. *)
Definition table_exists_sql (dataset_id table_name : string) : string :=
  match Format.format DatasetManager.table_exists_template
          (<["dataset_id" := PyStr dataset_id]> {["table_name" := PyStr table_name]}) with
  | Ok q => q
  | Raise _ => EmptyString
  end.

(** An engine for the dataset [proj.ds] in which the tables [existing]
    exist, and which fails every write when [failing]. *)
Definition stub_engine (existing : list string) (failing : bool)
    (history : list call) (c : call) : reply :=
  match c with
  | Query sql None =>
      let found :=
        existsb (fun t => String.eqb sql (table_exists_sql "proj.ds" t)) existing in
      Rows [[("table_exists", Int (if found then 1 else 0))]]
  | Query _ (Some _) => if failing then Failed "quota exceeded" else Rows []
  | _ => Rows []
  end.

Definition stub_client (existing : list string) (failing : bool) : Client :=
  {| project := "proj"; respond := stub_engine existing failing; calls := [] |}.

Definition stub_dataset : Dataset :=
  {| dataset_project := "proj"; dataset_name := "ds"; location := "EU" |}.

Definition stub_dataset_manager (existing : list string) (failing : bool)
  : DatasetManager.t :=
  DatasetManager.__init__ (stub_client existing failing) stub_dataset.

Definition stub_templated (existing : list string) (failing : bool)
    (internal external extras : gmap string string) (runtime : pyval)
  : TemplatedDatasetManager.t :=
  {| TemplatedDatasetManager.dataset_manager := stub_dataset_manager existing failing;
     TemplatedDatasetManager.internal_tables := internal;
     TemplatedDatasetManager.external_tables := external;
     TemplatedDatasetManager.extras := extras;
     TemplatedDatasetManager.run_datetime := runtime |}.

(** The session that the factory builds on the stub engine, for the
    dataset [ds] of the project [proj]. *)
Definition stub_session (existing : list string) (failing : bool)
    (runtime : pyval) (internal : list string) (external extras : gmap string string)
  : PartitionedDatasetManager.t :=
  match create_dataset_manager (stub_client existing failing) runtime "ds"
          internal external extras "EU" with
  | Ok (_, manager) => manager
  | Raise _ =>
      PartitionedDatasetManager.__init__
        (stub_templated existing failing ∅ external extras runtime) PyNone
  end.

(** ** The claims that the code does not meet, as they are stated *)


(** C5 as stated: whatever the call, the destination of a write that it
    submits has no partition or a partition of eight digits. *)
Definition every_suffix_has_eight_digits : Prop :=
  forall (self : PartitionedDatasetManager.t) (o : operation) (c : call) (d : string),
    c ∈ writes_in o self ->
    destination_of c = Some d ->
    well_suffixed d = true.

(** C9 as stated, for the part that fails: once [write_tmp] is called
    for [staging], the field [{staging}] is rendered as the id that the
    call registered. *)
Definition staging_renders_registered_id : Prop :=
  forall (self : PartitionedDatasetManager.t) (sql : string)
         (custom_run_datetime custom_run_datetime' : pyval),
    let self' := after (WriteTmp "staging" sql custom_run_datetime) self in
    exists id,
      aliases self' !! "staging" = Some id
      /\ Format.format "{staging}"
           (TemplatedDatasetManager.template_variables (templated self')
              custom_run_datetime') = Ok id.

(** ** More predicates for the statements *)

(** [old] occurs somewhere in [s]. *)
Fixpoint occurs_in (old s : string) : bool :=
  match s with
  | EmptyString => String.prefix old EmptyString
  | String _ s' => String.prefix old s || occurs_in old s'
  end.

(** Neither a dot nor a dollar sign occurs in [s]. *)
Definition plain_part (s : string) : bool :=
  negb (Str.has_char "." s) && negb (Str.has_char "$" s).

(** The text of the query of [table_exists], with the dataset id and
    the table name in their places. *)
Definition table_exists_query (dataset_id table_name : string) : string :=
"
            SELECT count(*) as table_exists
            FROM `" +:+ dataset_id +:+ ".__TABLES__`
            WHERE table_id='" +:+ table_name +:+ "'
            ".

(** The templated manager once [write_tmp] has registered the alias of
    [table_name]. *)
Definition registered (table_name : string) (self : TemplatedDatasetManager.t)
  : TemplatedDatasetManager.t :=
  TemplatedDatasetManager.set_internal_tables
    (<[table_name := TemplatedDatasetManager.create_table_id self table_name]>
       (TemplatedDatasetManager.internal_tables self)) self.

(** The client has made at most [n] more calls, at most [w] of them
    writes. *)
Definition adds_at_most (n w : nat) (cl cl' : Client) : Prop :=
  exists new, calls cl' = (calls cl ++ new)%list
              /\ length new <= n /\ length (writes new) <= w.

(** A method makes at most [n] calls, at most [w] of them writes, on
    the client that [client] finds in the state. *)
Definition calls_within {S A : Type} (client : S -> Client) (n w : nat) (m : M S A)
  : Prop :=
  forall s, adds_at_most n w (client s) (client (snd (m s))).

(** The calls that write: [write_truncate], [write_append] and
    [write_tmp]. *)
Definition is_write_operation (o : operation) : bool :=
  match o with
  | WriteTruncate _ _ _ _ | WriteAppend _ _ _ _ | WriteTmp _ _ _ => true
  | _ => false
  end.

(** Neither a dot, a colon nor a dollar sign occurs in [s]. *)
Definition simple_name (s : string) : bool :=
  plain_part s && negb (Str.has_char ":" s).

(** * Properties *)

Local Open Scope list_scope.

(** ** Strings *)

Lemma is_char_true (c d : ascii) : Str.is_char c d = true <-> c = d.
Proof. apply Ascii.eqb_eq. Qed.

Lemma is_char_false (c d : ascii) : Str.is_char c d = false <-> c <> d.
Proof. apply Ascii.eqb_neq. Qed.

Lemma append_nil_l (s : string) : "" +:+ s = s.
Proof. reflexivity. Qed.

Lemma append_cons (c : ascii) (s r : string) : String c s +:+ r = String c (s +:+ r).
Proof. reflexivity. Qed.

Lemma append_nil_r (s : string) : s +:+ "" = s.
Proof. induction s as [|c s IH]; [done | by rewrite append_cons, IH]. Qed.

Lemma append_assoc (a b c : string) : (a +:+ b) +:+ c = a +:+ (b +:+ c).
Proof. induction a as [|x a IH]; [done | by rewrite !append_cons, IH]. Qed.

Lemma slice_to_take (n : nat) (s : string) :
  list_ascii_of_string (Str.slice_to n s) = take n (list_ascii_of_string s).
Proof.
  revert s; induction n as [|n IH]; intros [|c s]; simpl; try done.
  by rewrite IH.
Qed.

Lemma prefix_one (d c : ascii) (s : string) :
  String.prefix (String d "") (String c s) = Str.is_char c d.
Proof.
  simpl. destruct (ascii_dec d c) as [->|Hne].
  - destruct s; symmetry; by apply is_char_true.
  - symmetry. apply is_char_false. congruence.
Qed.

(** Replacing a character by nothing filters it out. *)
Lemma replace_char_by_nothing (d : ascii) (s : string) :
  Str.replace (String d "") "" s
  = string_of_list_ascii (filter (fun c => c <> d) (list_ascii_of_string s)).
Proof.
  unfold Str.replace.
  induction s as [|c s IH]; [done|].
  cbn [Str.replace_from list_ascii_of_string].
  rewrite prefix_one, filter_cons.
  destruct (Str.is_char c d) eqn:E.
  - apply is_char_true in E. subst c.
    rewrite decide_False by (intros H; by apply H).
    rewrite append_nil_l, Nat.sub_diag. exact IH.
  - apply is_char_false in E.
    rewrite decide_True by done.
    simpl. by rewrite IH.
Qed.

(** After an occurrence of [old], replacement goes on behind it. *)
Lemma replace_from_skip (old new u r : string) :
  Str.replace_from old new (String.length u) (u +:+ r) = Str.replace_from old new 0 r.
Proof.
  induction u as [|c u IH]; [by destruct r|].
  rewrite append_cons. exact IH.
Qed.

Lemma prefix_append (u r : string) : String.prefix u (u +:+ r) = true.
Proof.
  induction u as [|c u IH]; [by destruct r|].
  rewrite append_cons. simpl.
  destruct (ascii_dec c c); [exact IH | done].
Qed.

Lemma replace_occurrence (c : ascii) (u new r : string) :
  Str.replace (String c u) new (String c u +:+ r)
  = new +:+ Str.replace (String c u) new r.
Proof.
  unfold Str.replace.
  rewrite append_cons.
  cbn [Str.replace_from].
  rewrite <- append_cons, prefix_append.
  replace (String.length (String c u) - 1) with (String.length u)
    by (cbn [String.length]; lia).
  by rewrite replace_from_skip.
Qed.

(** ** The partition of a run datetime *)

(** C3: the partition of ["2020-01-01 10:00:00"] and of ["2020-01-01"] is
    ["20200101"], the partition of [None] is [None], and the partition
    of any string is its first ten characters without the dashes. *)
Theorem partition_of_run_datetime :
  get_partition_from_run_datetime_or_none (PyStr "2020-01-01 10:00:00") = PyStr "20200101"
  /\ get_partition_from_run_datetime_or_none (PyStr "2020-01-01") = PyStr "20200101"
  /\ get_partition_from_run_datetime_or_none PyNone = PyNone
  /\ forall run_datetime : string,
       get_partition_from_run_datetime_or_none (PyStr run_datetime)
       = PyStr (string_of_list_ascii
                  (filter (fun c => c <> "-"%char)
                     (take 10 (list_ascii_of_string run_datetime)))).
Proof.
  repeat split; try reflexivity.
  intros s. unfold get_partition_from_run_datetime_or_none.
  by rewrite replace_char_by_nothing, slice_to_take.
Qed.

(** ** Rendering *)

Lemma brace_free_cons (c : ascii) (s : string) :
  brace_free (String c s) = true
  <-> Str.is_char c "{" = false /\ Str.is_char c "}" = false /\ brace_free s = true.
Proof.
  unfold brace_free. cbn [Str.has_char].
  destruct (Str.is_char c "{"), (Str.is_char c "}"),
    (Str.has_char "{" s), (Str.has_char "}" s); simpl; intuition congruence.
Qed.


(** Text without a brace is copied, and rendering goes on behind it. *)
Lemma format_text (kwargs : gmap string pyval) (l r : string) :
  brace_free l = true ->
  Format.format_from Format.Text kwargs (l +:+ r)
  = result_map (String.append l) (Format.format_from Format.Text kwargs r).
Proof.
  induction l as [|c l IH]; intros Hl.
  - rewrite append_nil_l. by destruct (Format.format_from _ _ r).
  - apply brace_free_cons in Hl as (Ho & Hc & Hl).
    rewrite append_cons. cbn [Format.format_from]. rewrite Ho, Hc, (IH Hl).
    by destruct (Format.format_from _ _ r).
Qed.


Lemma key_name_cons (c : ascii) (s : string) :
  Str.all_chars
    (fun c => negb (Str.is_char c "{" || Str.is_char c "}" || Str.is_char c "["
                    || Str.is_char c ":" || Str.is_char c "!" || Str.is_char c "."))
    (String c s) = true ->
  Str.is_char c "{" = false /\ Str.is_char c "}" = false
  /\ (Str.is_char c "[" || Str.is_char c ":" || Str.is_char c "!") = false
  /\ Str.all_chars
       (fun c => negb (Str.is_char c "{" || Str.is_char c "}" || Str.is_char c "["
                       || Str.is_char c ":" || Str.is_char c "!" || Str.is_char c "."))
       s = true.
Proof.
  cbn [Str.all_chars].
  destruct (Str.is_char c "{"), (Str.is_char c "}"), (Str.is_char c "["),
    (Str.is_char c ":"), (Str.is_char c "!"), (Str.is_char c "."); simpl;
    intuition congruence.
Qed.

(** Inside a field, the characters of a key are collected up to the
    closing brace. *)
Lemma format_field_rest (kwargs : gmap string pyval) (acc name r : string) :
  Str.all_chars
    (fun c => negb (Str.is_char c "{" || Str.is_char c "}" || Str.is_char c "["
                    || Str.is_char c ":" || Str.is_char c "!" || Str.is_char c "."))
    name = true ->
  Format.format_from (Format.Field acc) kwargs (name +:+ String "}" r)
  = match Format.resolve kwargs (acc +:+ name) with
    | Ok v => result_map (String.append v) (Format.format_from Format.Text kwargs r)
    | Raise e => Raise e
    end.
Proof.
  revert acc; induction name as [|c name IH]; intros acc Hn.
  - rewrite append_nil_l, append_nil_r. reflexivity.
  - apply key_name_cons in Hn as (Ho & Hc & Hx & Hn).
    rewrite append_cons. cbn [Format.format_from]. rewrite Ho, Hc, Hx.
    rewrite (IH _ Hn). unfold Format.snoc.
    by rewrite append_assoc.
Qed.

(** A field with a key for a name is replaced by the value of the key. *)
Lemma format_field (kwargs : gmap string pyval) (name r : string) :
  key_name name = true ->
  Format.format_from Format.Text kwargs (String "{" (name +:+ String "}" r))
  = match kwargs !! name with
    | Some v => result_map (String.append (py_str v))
                  (Format.format_from Format.Text kwargs r)
    | None => Raise (KeyError name)
    end.
Proof.
  unfold key_name. intros [Hd Hn]%andb_true_iff. apply negb_true_iff in Hd.
  assert (Hdot : Str.has_char "." name = false).
  { clear Hd. induction name as [|c name IH]; [done|].
    cbn [Str.all_chars] in Hn. apply andb_true_iff in Hn as [Hc Hn].
    cbn [Str.has_char]. rewrite (IH Hn).
    destruct (Str.is_char c "."); [|done].
    by rewrite !orb_true_r in Hc. }
  destruct name as [|c name]; [done|].
  pose proof (key_name_cons _ _ Hn) as (Ho & Hc & Hx & Hn').
  rewrite append_cons.
  change (Format.format_from Format.Text kwargs (String "{" (String c (name +:+ String "}" r))))
    with (Format.format_from Format.Open kwargs (String c (name +:+ String "}" r))).
  cbn [Format.format_from]. rewrite Ho, Hc, Hx.
  rewrite (format_field_rest _ _ _ _ Hn').
  unfold Format.snoc. rewrite append_nil_l, append_cons, append_nil_l.
  unfold Format.resolve. rewrite Hdot, Hd.
  by destruct (kwargs !! String c name).
Qed.









(** ** The template context *)

(** The value of a name in the context of a call. *)
Lemma lookup_template_variables
    (self : TemplatedDatasetManager.t) (custom_run_datetime : pyval) (k : string) :
  TemplatedDatasetManager.template_variables self custom_run_datetime !! k
  = if decide (k = "dt")
    then Some (py_or custom_run_datetime (TemplatedDatasetManager.run_datetime self))
    else PyStr <$>
           match TemplatedDatasetManager.extras self !! k with
           | Some v => Some v
           | None =>
               match TemplatedDatasetManager.external_tables self !! k with
               | Some v => Some v
               | None => TemplatedDatasetManager.internal_tables self !! k
               end
           end.
Proof.
  unfold TemplatedDatasetManager.template_variables, dict_update.
  destruct (decide (k = "dt")) as [->|Hk].
  - by rewrite lookup_insert_eq.
  - rewrite lookup_insert_ne by done.
    rewrite !lookup_union, !lookup_fmap, lookup_empty.
    destruct (TemplatedDatasetManager.extras self !! k),
      (TemplatedDatasetManager.external_tables self !! k),
      (TemplatedDatasetManager.internal_tables self !! k); reflexivity.
Qed.

(** C7: an extra replaces an internal or an external table of the same
    name, [dt] is set last and replaces an extra named [dt], and with
    an internal table [t] and an extra [t] the field [{t}] is rendered
    as the extra. *)
Theorem context_precedence
    (self : TemplatedDatasetManager.t) (custom_run_datetime : pyval) :
  let vars := TemplatedDatasetManager.template_variables self custom_run_datetime in
  (forall k v : string,
     TemplatedDatasetManager.extras self !! k = Some v ->
     k <> "dt" ->
     vars !! k = Some (PyStr v))
  /\ vars !! "dt"
     = Some (py_or custom_run_datetime (TemplatedDatasetManager.run_datetime self))
  /\ (forall a b : string,
        TemplatedDatasetManager.internal_tables self !! "t" = Some a ->
        TemplatedDatasetManager.extras self !! "t" = Some b ->
        Format.format "{t}" vars = Ok b).
Proof.
  intros vars. subst vars. repeat split.
  - intros k v Hx Hk. rewrite lookup_template_variables, Hx.
    by rewrite decide_False.
  - by rewrite lookup_template_variables.
  - intros a b _ Hx. unfold Format.format.
    change "{t}" with (String "{" ("t" +:+ String "}" "")).
    rewrite format_field by reflexivity.
    rewrite lookup_template_variables, Hx. simpl.
    by rewrite append_nil_r.
Qed.

(** ** What the methods keep *)

Section Keeps.

Context {S : Type} (R : S -> S -> Prop) `{!PreOrder R}.

Lemma keeps_ret {A : Type} (a : A) : keeps R (ret a).
Proof. intros s. simpl. reflexivity. Qed.

Lemma keeps_raise {A : Type} (e : exn) : keeps R (@raise S A e).
Proof. intros s. simpl. reflexivity. Qed.

Lemma keeps_lift {A : Type} (r : result A) : keeps R (lift r).
Proof. intros s. simpl. reflexivity. Qed.

Lemma keeps_gets {A : Type} (f : S -> A) : keeps R (gets f).
Proof. intros s. simpl. reflexivity. Qed.

Lemma keeps_bind {A B : Type} (m : M S A) (k : A -> M S B) :
  keeps R m -> (forall a, keeps R (k a)) -> keeps R (bind m k).
Proof.
  intros Hm Hk s. unfold bind. specialize (Hm s).
  destruct (m s) as [[a|e] s']; simpl in *; [|done].
  etrans; [exact Hm | apply Hk].
Qed.

Lemma keeps_if {A : Type} (b : bool) (m1 m2 : M S A) :
  keeps R m1 -> keeps R m2 -> keeps R (if b then m1 else m2).
Proof. by destruct b. Qed.

Lemma keeps_modify (f : S -> S) : (forall s, R s (f s)) -> keeps R (modify f).
Proof. intros Hf s. apply Hf. Qed.

Lemma keeps_zoom {T A : Type} (R' : T -> T -> Prop)
    (get : S -> T) (set : T -> S -> S) (m : M T A) :
  (forall s t, R' (get s) t -> R s (set t s)) ->
  keeps R' m -> keeps R (zoom get set m).
Proof.
  intros Hset Hm s. unfold zoom. specialize (Hm (get s)).
  destruct (m (get s)) as [r t]. simpl in *. by apply Hset.
Qed.

End Keeps.

Lemma keeps_weaken {S A : Type} (R R' : S -> S -> Prop) (m : M S A) :
  (forall s s', R s s' -> R' s s') -> keeps R m -> keeps R' m.
Proof. intros HR Hm s. apply HR, Hm. Qed.

Lemma writes_app (a b : list call) : writes (a ++ b) = writes a ++ writes b.
Proof. apply List.filter_app. Qed.

Lemma submitted_app (cl cl' : Client) (new : list call) :
  calls cl' = calls cl ++ new -> submitted cl cl' = new.
Proof. intros H. unfold submitted. by rewrite H, drop_app_length. Qed.

#[local] Instance client_grows_preorder : PreOrder client_grows.
Proof.
  split.
  - intros cl. repeat split. exists []. by rewrite app_nil_r.
  - intros a b c (Hp1 & Hr1 & n1 & H1) (Hp2 & Hr2 & n2 & H2).
    repeat split; [congruence..|].
    exists (n1 ++ n2). by rewrite H2, H1, app_assoc.
Qed.

#[local] Instance client_reads_preorder : PreOrder client_reads.
Proof.
  split.
  - intros cl. repeat split. exists []. by rewrite app_nil_r.
  - intros a b c (Hp1 & Hr1 & n1 & H1 & W1) (Hp2 & Hr2 & n2 & H2 & W2).
    repeat split; [congruence..|].
    exists (n1 ++ n2). split; [by rewrite H2, H1, app_assoc|].
    by rewrite writes_app, W1, W2.
Qed.

Lemma client_reads_grows (cl cl' : Client) : client_reads cl cl' -> client_grows cl cl'.
Proof. intros (Hp & Hr & new & H & _). repeat split; eauto. Qed.

#[local] Instance dataset_manager_frame_preorder (R : Client -> Client -> Prop)
  `{!PreOrder R} : PreOrder (dataset_manager_frame R).
Proof.
  split.
  - intros d. unfold dataset_manager_frame. split_and!; reflexivity.
  - intros a b c (H1 & H2 & H3) (H4 & H5 & H6).
    repeat split; [congruence..|]. by etrans.
Qed.

#[local] Instance aliases_grow_preorder : PreOrder aliases_grow.
Proof. unfold aliases_grow. split; [by intros m | intros a b c; set_solver]. Qed.

#[local] Instance aliases_same_preorder : PreOrder aliases_same.
Proof. unfold aliases_same. split; [by intros m | intros a b c; congruence]. Qed.

#[local] Instance templated_frame_preorder
  (I : gmap string string -> gmap string string -> Prop) `{!PreOrder I} :
  PreOrder (templated_frame I).
Proof.
  split.
  - intros t. unfold templated_frame. split_and!; reflexivity.
  - intros a b c (H1 & H2 & H3 & H4 & H5) (H6 & H7 & H8 & H9 & H10).
    split; [congruence|]. split; [congruence|]. split; [congruence|].
    split; by etrans.
Qed.

#[local] Instance session_frame_preorder
  (I : gmap string string -> gmap string string -> Prop) `{!PreOrder I} :
  PreOrder (session_frame I).
Proof.
  split.
  - intros p. split; reflexivity.
  - intros a b c (H1 & H2) (H3 & H4). split; [congruence | by etrans].
Qed.

Lemma request_grows (c : call) : keeps client_grows (BigQuery.request c).
Proof.
  intros cl. unfold BigQuery.request.
  destruct (respond cl (calls cl) c); simpl; repeat split; by exists [c].
Qed.

Lemma request_reads (c : call) :
  BigQuery.is_write c = false -> keeps client_reads (BigQuery.request c).
Proof.
  intros Hc cl. unfold BigQuery.request.
  destruct (respond cl (calls cl) c); simpl; repeat split; exists [c];
    (split; [done | unfold writes; simpl; by rewrite Hc]).
Qed.

Lemma client_zoom {A : Type} (R : Client -> Client -> Prop) (m : M Client A) :
  keeps R m -> keeps (dataset_manager_frame R) (DatasetManager.client m).
Proof.
  apply (keeps_zoom (dataset_manager_frame R) R). intros s t H. by repeat split.
Qed.

Create HintDb keeps.
#[local] Hint Resolve keeps_ret keeps_raise keeps_lift keeps_gets keeps_if
  request_grows : keeps.
#[local] Hint Extern 1 (PreOrder _) => apply _ : keeps.
#[local] Hint Extern 2 (keeps _ (bind _ _)) =>
  (apply keeps_bind; [| | intro]) : keeps.
#[local] Hint Extern 2 (keeps _ (DatasetManager.client _)) =>
  apply client_zoom : keeps.

Lemma table_exists_template_renders (d t : string) :
  exists q, Format.format DatasetManager.table_exists_template
              (<["dataset_id" := PyStr d]> {["table_name" := PyStr t]}) = Ok q.
Proof. eexists. vm_compute. reflexivity. Qed.

Lemma table_exists_reads (table_name : string) :
  keeps (dataset_manager_frame client_reads) (DatasetManager.table_exists table_name).
Proof.
  unfold DatasetManager.table_exists, BigQuery.query.
  apply keeps_bind; [apply _ | auto with keeps | intros d].
  apply keeps_bind; [apply _ | auto with keeps | intros q].
  apply keeps_bind; [apply _ | | intros; auto with keeps].
  apply client_zoom, request_reads. reflexivity.
Qed.

Lemma table_exists_or_error_reads (table_id : string) :
  keeps (dataset_manager_frame client_reads) (DatasetManager.table_exists_or_error table_id).
Proof.
  unfold DatasetManager.table_exists_or_error.
  apply keeps_bind; [apply _ | auto with keeps | intros n].
  apply keeps_bind; [apply _ | apply table_exists_reads | intros b].
  apply keeps_if; auto with keeps.
Qed.

Lemma dataset_manager_frame_weaken (d d' : DatasetManager.t) :
  dataset_manager_frame client_reads d d' -> dataset_manager_frame client_grows d d'.
Proof. intros (H1 & H2 & H3). repeat split; try done; by apply client_reads_grows. Qed.

Lemma write_grows (table_id sql mode : string) :
  keeps (dataset_manager_frame client_grows) (DatasetManager.write table_id sql mode).
Proof. unfold DatasetManager.write, BigQuery.query. auto with keeps. Qed.

Lemma table_exists_or_error_grows (table_id : string) :
  keeps (dataset_manager_frame client_grows)
    (DatasetManager.table_exists_or_error table_id).
Proof.
  eapply keeps_weaken; [apply dataset_manager_frame_weaken|].
  apply table_exists_or_error_reads.
Qed.

Lemma table_exists_grows (table_name : string) :
  keeps (dataset_manager_frame client_grows) (DatasetManager.table_exists table_name).
Proof.
  eapply keeps_weaken; [apply dataset_manager_frame_weaken|].
  apply table_exists_reads.
Qed.

#[local] Hint Resolve write_grows table_exists_or_error_grows table_exists_grows : keeps.

Lemma write_truncate_grows (table_id sql : string) :
  keeps (dataset_manager_frame client_grows) (DatasetManager.write_truncate table_id sql).
Proof. unfold DatasetManager.write_truncate. auto with keeps. Qed.

Lemma write_append_grows (table_id sql : string) :
  keeps (dataset_manager_frame client_grows) (DatasetManager.write_append table_id sql).
Proof. unfold DatasetManager.write_append. auto with keeps. Qed.

Lemma write_tmp_grows (table_id sql : string) :
  keeps (dataset_manager_frame client_grows) (DatasetManager.write_tmp table_id sql).
Proof. unfold DatasetManager.write_tmp. auto with keeps. Qed.

Lemma create_table_grows (create_query : string) :
  keeps (dataset_manager_frame client_grows) (DatasetManager.create_table create_query).
Proof. unfold DatasetManager.create_table, BigQuery.query. auto with keeps. Qed.

Lemma collect_grows (sql : string) :
  keeps (dataset_manager_frame client_grows) (DatasetManager.collect sql).
Proof. unfold DatasetManager.collect, BigQuery.query. auto with keeps. Qed.

Lemma remove_dataset_grows :
  keeps (dataset_manager_frame client_grows) DatasetManager.remove_dataset.
Proof. unfold DatasetManager.remove_dataset. auto with keeps. Qed.

#[local] Hint Resolve write_truncate_grows write_append_grows write_tmp_grows
  create_table_grows collect_grows remove_dataset_grows : keeps.

(** *** The templated manager *)

Lemma templated_inner {A : Type}
    (I : gmap string string -> gmap string string -> Prop) `{!PreOrder I}
    (m : M DatasetManager.t A) :
  keeps (dataset_manager_frame client_grows) m ->
  keeps (templated_frame I) (TemplatedDatasetManager.inner m).
Proof.
  apply (keeps_zoom (templated_frame I) (dataset_manager_frame client_grows)).
  intros s t H. unfold templated_frame. simpl. split_and!; done.
Qed.

#[local] Hint Extern 2 (keeps _ (TemplatedDatasetManager.inner _)) =>
  apply templated_inner : keeps.

Lemma templated_write_keeps
    (I : gmap string string -> gmap string string -> Prop) `{!PreOrder I}
    (write_callable : TemplatedDatasetManager.writer)
    (table_name sql : string) (custom_run_datetime : pyval) :
  (forall t q, keeps (dataset_manager_frame client_grows) (write_callable t q)) ->
  keeps (templated_frame I)
    (TemplatedDatasetManager.write write_callable table_name sql custom_run_datetime).
Proof. intros H. unfold TemplatedDatasetManager.write. auto with keeps. Qed.

Lemma templated_frame_weaken (t t' : TemplatedDatasetManager.t) :
  templated_frame aliases_same t t' -> templated_frame aliases_grow t t'.
Proof.
  intros (H1 & H2 & H3 & H4 & H5). unfold templated_frame. split_and!; try done.
  unfold aliases_same in H4. unfold aliases_grow. by rewrite H4.
Qed.

Lemma templated_write_tmp_keeps (table_name sql : string) (custom_run_datetime : pyval) :
  keeps (templated_frame aliases_grow)
    (TemplatedDatasetManager.write_tmp table_name sql custom_run_datetime).
Proof.
  unfold TemplatedDatasetManager.write_tmp.
  apply keeps_bind; [apply _ | | intros _].
  - apply keeps_modify. intros s. unfold templated_frame. simpl.
    split_and!; try done.
    unfold aliases_grow. rewrite dom_insert. set_solver.
  - apply templated_write_keeps; auto with keeps typeclass_instances.
Qed.

Lemma templated_methods_keep (table_name sql : string) (custom_run_datetime : pyval) :
  keeps (templated_frame aliases_same)
    (TemplatedDatasetManager.write_truncate table_name sql custom_run_datetime)
  /\ keeps (templated_frame aliases_same)
       (TemplatedDatasetManager.write_append table_name sql custom_run_datetime)
  /\ keeps (templated_frame aliases_same)
       (TemplatedDatasetManager.collect sql custom_run_datetime)
  /\ keeps (templated_frame aliases_same) (TemplatedDatasetManager.create_table sql)
  /\ keeps (templated_frame aliases_same) TemplatedDatasetManager.remove_dataset
  /\ keeps (templated_frame aliases_same) (TemplatedDatasetManager.table_exists table_name).
Proof.
  split_and!.
  - apply templated_write_keeps; auto with keeps typeclass_instances.
  - apply templated_write_keeps; auto with keeps typeclass_instances.
  - unfold TemplatedDatasetManager.collect. auto with keeps.
  - unfold TemplatedDatasetManager.create_table. auto with keeps.
  - unfold TemplatedDatasetManager.remove_dataset. auto with keeps.
  - unfold TemplatedDatasetManager.table_exists. auto with keeps.
Qed.

(** *** The partitioned manager *)

Lemma partitioned_inner {A : Type}
    (I : gmap string string -> gmap string string -> Prop)
    (m : M TemplatedDatasetManager.t A) :
  keeps (templated_frame I) m ->
  keeps (session_frame I) (PartitionedDatasetManager.inner m).
Proof.
  apply (keeps_zoom (session_frame I) (templated_frame I)).
  intros s t H. by split.
Qed.

Lemma partitioned_write_keeps
    (I : gmap string string -> gmap string string -> Prop) `{!PreOrder I}
    (write_callable : PartitionedDatasetManager.writer)
    (table_name sql : string) (partitioned : bool) (custom_run_datetime : pyval) :
  (forall n q c, keeps (templated_frame I) (write_callable n q c)) ->
  keeps (session_frame I)
    (PartitionedDatasetManager._write write_callable table_name sql partitioned
       custom_run_datetime).
Proof.
  intros H. unfold PartitionedDatasetManager._write.
  apply keeps_bind; [apply _ | | intros n; by apply partitioned_inner].
  apply keeps_if; auto with keeps.
Qed.

(** Every call keeps the session: the run datetime, the partition, the
    external tables, the extras and the dataset stay, the client only
    makes more calls, and no alias is lost. *)
Lemma perform_keeps_session (o : operation) :
  keeps (session_frame aliases_grow) (perform o).
Proof.
  destruct o as [n q p c|n q p c|n q c|q c|q| |n|]; unfold perform, discard.
  - apply partitioned_write_keeps; [apply _|]. intros n' q' c'.
    eapply keeps_weaken; [apply templated_frame_weaken|].
    apply (templated_methods_keep n' q' c').
  - apply partitioned_write_keeps; [apply _|]. intros n' q' c'.
    eapply keeps_weaken; [apply templated_frame_weaken|].
    apply (templated_methods_keep n' q' c').
  - apply partitioned_write_keeps; [apply _|]. intros n' q' c'.
    apply templated_write_tmp_keeps.
  - apply keeps_bind; [apply _ | | auto with keeps].
    apply partitioned_inner.
    eapply keeps_weaken; [apply templated_frame_weaken|].
    apply (templated_methods_keep "" q c).
  - apply partitioned_inner.
    eapply keeps_weaken; [apply templated_frame_weaken|].
    apply (templated_methods_keep "" q PyNone).
  - apply partitioned_inner.
    eapply keeps_weaken; [apply templated_frame_weaken|].
    apply (templated_methods_keep "" "" PyNone).
  - apply keeps_bind; [apply _ | | auto with keeps].
    apply partitioned_inner.
    eapply keeps_weaken; [apply templated_frame_weaken|].
    apply (templated_methods_keep n "" PyNone).
  - auto with keeps.
Qed.

(** A call other than [write_tmp] leaves the aliases as they are. *)
Lemma perform_keeps_aliases (o : operation) :
  is_write_tmp o = false -> keeps (session_frame aliases_same) (perform o).
Proof.
  destruct o as [n q p c|n q p c|n q c|q c|q| |n|]; intros Ho; try done;
    unfold perform, discard.
  - apply partitioned_write_keeps; [apply _|]. intros n' q' c'.
    apply (templated_methods_keep n' q' c').
  - apply partitioned_write_keeps; [apply _|]. intros n' q' c'.
    apply (templated_methods_keep n' q' c').
  - apply keeps_bind; [apply _ | | auto with keeps].
    apply partitioned_inner. apply (templated_methods_keep "" q c).
  - apply partitioned_inner. apply (templated_methods_keep "" q PyNone).
  - apply partitioned_inner. apply (templated_methods_keep "" "" PyNone).
  - apply keeps_bind; [apply _ | | auto with keeps].
    apply partitioned_inner. apply (templated_methods_keep n "" PyNone).
Qed.

(** ** The existence check of [write_truncate] and [write_append] *)

Lemma reads_no_writes (cl cl' : Client) :
  client_reads cl cl' -> writes (submitted cl cl') = [].
Proof. intros (_ & _ & new & H & W). by rewrite (submitted_app _ _ _ H). Qed.

Lemma format_table_missing (table_id : string) :
  Format.format "Table {id} does not exist" {["id" := PyStr table_id]}
  = Ok ("Table " +:+ table_id +:+ " does not exist").
Proof. vm_compute. reflexivity. Qed.

Lemma write_calls (table_id sql mode : string) (self : DatasetManager.t) :
  calls (DatasetManager.bigquery_client (snd (DatasetManager.write table_id sql mode self)))
  = calls (DatasetManager.bigquery_client self)
    ++ [Query sql (Some (DatasetManager.write_job_config table_id mode))].
Proof.
  unfold DatasetManager.write, bind, DatasetManager.client, zoom, BigQuery.query,
    BigQuery.request.
  by destruct (respond _ _ _).
Qed.

(** The writes of a method that checks and then writes. *)
Lemma checked_write_writes (table_id sql mode : string) (self : DatasetManager.t) :
  let m := bind (DatasetManager.table_exists_or_error table_id)
             (fun _ => DatasetManager.write table_id sql mode) in
  let job := Query sql (Some (DatasetManager.write_job_config table_id mode)) in
  (exists e, fst (DatasetManager.table_exists_or_error table_id self) = Raise e
             /\ fst (m self) = Raise e /\ writes_by m self = [])
  \/ (fst (DatasetManager.table_exists_or_error table_id self) = Ok tt
      /\ writes_by m self = [job]).
Proof.
  intros m job. subst m. unfold writes_by, bind.
  pose proof (table_exists_or_error_reads table_id self) as Hr.
  destruct (DatasetManager.table_exists_or_error table_id self) as [[[]|e] self'];
    simpl in Hr; destruct Hr as (_ & _ & Hr).
  - right. split; [done|].
    destruct Hr as (_ & _ & new & Hnew & Wnew).
    erewrite submitted_app; last first.
    { rewrite write_calls, Hnew, <- app_assoc. reflexivity. }
    by rewrite writes_app, Wnew.
  - left. exists e. split_and!; try done. simpl. by apply reads_no_writes.
Qed.

(** C1: when the base table of the destination does not exist,
    [write_truncate] and [write_append] raise the error
    [Table ... does not exist] and submit no write. *)
Theorem write_refused_without_base_table
    (self : DatasetManager.t) (table_id sql table_name : string) :
  DatasetManager.base_table_name table_id = Ok table_name ->
  fst (DatasetManager.table_exists table_name self) = Ok false ->
  (fst (DatasetManager.write_truncate table_id sql self)
   = Raise (ValueError ("Table " +:+ table_id +:+ " does not exist"))
   /\ writes_by (DatasetManager.write_truncate table_id sql) self = [])
  /\ (fst (DatasetManager.write_append table_id sql self)
      = Raise (ValueError ("Table " +:+ table_id +:+ " does not exist"))
      /\ writes_by (DatasetManager.write_append table_id sql) self = []).
Proof.
  intros Hbase Hmissing.
  assert (Hcheck : fst (DatasetManager.table_exists_or_error table_id self)
                   = Raise (ValueError ("Table " +:+ table_id +:+ " does not exist"))).
  { unfold DatasetManager.table_exists_or_error, bind, lift. rewrite Hbase.
    destruct (DatasetManager.table_exists table_name self) as [r self'].
    simpl in Hmissing. subst r. simpl. by rewrite format_table_missing. }
  split.
  - destruct (checked_write_writes table_id sql "WRITE_TRUNCATE" self)
      as [(e & He & Hr & Hw)|[Hok _]]; [|congruence].
    split; [|exact Hw]. unfold DatasetManager.write_truncate. congruence.
  - destruct (checked_write_writes table_id sql "WRITE_APPEND" self)
      as [(e & He & Hr & Hw)|[Hok _]]; [|congruence].
    split; [|exact Hw]. unfold DatasetManager.write_append. congruence.
Qed.

(** ** The disposition of [write_tmp] *)



(** ** The partition suffix *)

Lemma format_partition (v : pyval) :
  Format.format "${partition}" {["partition" := v]} = Ok ("$" +:+ py_str v).
Proof.
  unfold Format.format.
  change "${partition}" with ("$" +:+ String "{" ("partition" +:+ String "}" "")).
  rewrite format_text by reflexivity.
  rewrite format_field by reflexivity.
  rewrite lookup_singleton_eq. simpl. by rewrite append_nil_r.
Qed.

(** What [_write] hands to the templated manager. *)
Lemma partitioned_write_run (write_callable : PartitionedDatasetManager.writer)
    (table_name sql : string) (partitioned : bool) (custom_run_datetime : pyval)
    (self : PartitionedDatasetManager.t) :
  PartitionedDatasetManager._write write_callable table_name sql partitioned
    custom_run_datetime self
  = PartitionedDatasetManager.inner
      (write_callable
         (if partitioned
          then table_name +:+ "$" +:+
               py_str (py_or (get_partition_from_run_datetime_or_none custom_run_datetime)
                         (PartitionedDatasetManager.partition self))
          else table_name)
         sql custom_run_datetime) self.
Proof.
  unfold PartitionedDatasetManager._write, bind, gets, lift, ret.
  destruct partitioned; [|reflexivity].
  by rewrite format_partition.
Qed.

Lemma is_digit_not_dash (c : ascii) : Str.is_digit c = true -> c <> "-"%char.
Proof. intros H ->. discriminate H. Qed.

(** The partition of a run datetime that starts with a date has eight
    digits. *)
Lemma partition_of_date (r : string) :
  date_prefixed r = true ->
  exists d, get_partition_from_run_datetime_or_none (PyStr r) = PyStr d
            /\ eight_digits d = true.
Proof.
  intros H. unfold date_prefixed in H.
  do 10 (destruct r as [|? r]; [discriminate H|]).
  do 9 (apply andb_true_iff in H as [H ?]).
  repeat match goal with
         | Hc : Str.is_char _ _ = true |- _ => apply is_char_true in Hc; subst
         end.
  eexists. split.
  - unfold get_partition_from_run_datetime_or_none.
    rewrite replace_char_by_nothing. cbn [Str.slice_to list_ascii_of_string].
    rewrite !filter_cons, filter_nil.
    repeat match goal with
           | Hd : Str.is_digit ?c = true |- context [decide (?c <> "-"%char)] =>
               rewrite (decide_True (P := c <> "-"%char)) by (by apply is_digit_not_dash)
           end.
    rewrite !(decide_False (P := "-"%char <> "-"%char)) by (intros Hn; by apply Hn).
    cbn [string_of_list_ascii]. reflexivity.
  - unfold eight_digits. cbn [String.length Str.all_chars].
    repeat match goal with
           | Hd : Str.is_digit _ = true |- _ => rewrite Hd; clear Hd
           end.
    reflexivity.
Qed.

(** C5, as the code has it: a call that is not partitioned hands the
    table name on as it is; a partitioned call appends a dollar sign and
    eight digits when the partition in effect, the one of
    [custom_run_datetime] if it is not empty and the one of the session
    otherwise, is the partition of a run datetime that starts with a
    date [YYYY-MM-DD]. *)
Theorem partition_suffix_of_dated_runtime
    (self : PartitionedDatasetManager.t)
    (write_callable : PartitionedDatasetManager.writer)
    (table_name sql : string) (custom_run_datetime : pyval) :
  PartitionedDatasetManager._write write_callable table_name sql false
    custom_run_datetime self
  = PartitionedDatasetManager.inner
      (write_callable table_name sql custom_run_datetime) self
  /\ forall r : string,
       py_or (get_partition_from_run_datetime_or_none custom_run_datetime)
         (PartitionedDatasetManager.partition self)
       = get_partition_from_run_datetime_or_none (PyStr r) ->
       date_prefixed r = true ->
       exists d : string,
         eight_digits d = true
         /\ PartitionedDatasetManager._write write_callable table_name sql true
              custom_run_datetime self
            = PartitionedDatasetManager.inner
                (write_callable (table_name +:+ "$" +:+ d) sql custom_run_datetime) self.
Proof.
  split; [apply partitioned_write_run|].
  intros r Heff Hr. destruct (partition_of_date r Hr) as (d & Hd & H8).
  exists d. split; [exact H8|].
  by rewrite partitioned_write_run, Heff, Hd.
Qed.

(** ** Writes through the three layers *)

(** [write] renders the SQL in the context of the call and hands the
    table id and the rendered SQL to the writer. *)
Lemma templated_write_run (write_callable : TemplatedDatasetManager.writer)
    (table_name sql : string) (custom_run_datetime : pyval)
    (self : TemplatedDatasetManager.t) :
  TemplatedDatasetManager.write write_callable table_name sql custom_run_datetime self
  = match Format.format sql
            (TemplatedDatasetManager.template_variables self custom_run_datetime) with
    | Ok rendered =>
        TemplatedDatasetManager.inner
          (write_callable (TemplatedDatasetManager.create_table_id self table_name) rendered)
          self
    | Raise e => (Raise e, self)
    end.
Proof.
  unfold TemplatedDatasetManager.write, bind, gets, lift.
  by destruct (Format.format _ _).
Qed.

Lemma submitted_none (cl : Client) : submitted cl cl = [].
Proof. unfold submitted. apply drop_all. Qed.





(** ** The run datetime of one call *)

Lemma after_keeps_session (o : operation) (self : PartitionedDatasetManager.t) :
  session_frame aliases_grow self (after o self).
Proof. apply perform_keeps_session. Qed.

Lemma after_all_keeps_session (os : list operation) (self : PartitionedDatasetManager.t) :
  session_frame aliases_grow self (after_all os self).
Proof.
  revert self. induction os as [|o os IH]; intros self; [reflexivity|].
  unfold after_all. cbn [foldl]. etrans; [apply (after_keeps_session o) | apply IH].
Qed.



(** ** The aliases of the internal tables *)

Lemma templated_write_tmp_registers (table_name sql : string)
    (custom_run_datetime : pyval) (self : TemplatedDatasetManager.t) :
  TemplatedDatasetManager.internal_tables
    (snd (TemplatedDatasetManager.write_tmp table_name sql custom_run_datetime self))
  = <[table_name := TemplatedDatasetManager.create_table_id self table_name]>
      (TemplatedDatasetManager.internal_tables self).
Proof.
  unfold TemplatedDatasetManager.write_tmp, bind, modify.
  set (self1 := TemplatedDatasetManager.set_internal_tables _ self).
  destruct (templated_write_keeps aliases_same DatasetManager.write_tmp table_name sql
              custom_run_datetime (fun t q => write_tmp_grows t q) self1)
    as (_ & _ & _ & Hsame & _).
  exact Hsame.
Qed.

(** C10: when [write_tmp] raises, because the SQL does not render or
    because the engine fails the job, the alias of the table is in the
    internal tables all the same. *)
Theorem write_tmp_registers_before_failing
    (self : TemplatedDatasetManager.t) (table_name sql : string)
    (custom_run_datetime : pyval) (e : exn) :
  fst (TemplatedDatasetManager.write_tmp table_name sql custom_run_datetime self)
  = Raise e ->
  let self' :=
    snd (TemplatedDatasetManager.write_tmp table_name sql custom_run_datetime self) in
  TemplatedDatasetManager.internal_tables self'
  = <[table_name := TemplatedDatasetManager.create_table_id self table_name]>
      (TemplatedDatasetManager.internal_tables self)
  /\ TemplatedDatasetManager.internal_tables self' !! table_name
     = Some (TemplatedDatasetManager.create_table_id self table_name).
Proof.
  intros _ self'. subst self'. rewrite templated_write_tmp_registers.
  split; [reflexivity | apply lookup_insert_eq].
Qed.

(** The same through the partitioned manager, whatever the outcome. *)
Lemma facade_write_tmp_registers (table_name sql : string) (custom_run_datetime : pyval)
    (self : PartitionedDatasetManager.t) :
  aliases (after (WriteTmp table_name sql custom_run_datetime) self)
  = <[table_name := TemplatedDatasetManager.create_table_id (templated self) table_name]>
      (aliases self).
Proof.
  unfold after, perform, PartitionedDatasetManager.write_tmp.
  rewrite partitioned_write_run.
  unfold PartitionedDatasetManager.inner, zoom, aliases, templated.
  pose proof (templated_write_tmp_registers table_name sql custom_run_datetime
                (PartitionedDatasetManager._dataset_manager self)) as H.
  by destruct (TemplatedDatasetManager.write_tmp _ _ _ _).
Qed.

Lemma create_table_id_staging (self : TemplatedDatasetManager.t) :
  TemplatedDatasetManager.create_table_id self "staging"
  = DatasetManager.dataset_id (TemplatedDatasetManager.dataset_manager self)
    +:+ ".staging".
Proof.
  unfold TemplatedDatasetManager.create_table_id,
    TemplatedDatasetManager.create_full_table_id,
    TemplatedDatasetManager.full_table_id_in.
  change (hd "" (Str.split "$" "staging")) with "staging".
  change "staging" with ("staging" +:+ "") at 3.
  rewrite replace_occurrence.
  change (Str.replace "staging" _ "") with "".
  by rewrite append_nil_r, !append_assoc.
Qed.

Lemma after_dataset_id (o : operation) (self : PartitionedDatasetManager.t) :
  session_dataset_id (after o self) = session_dataset_id self.
Proof. by destruct (after_keeps_session o self) as (_ & _ & _ & _ & _ & _ & H & _). Qed.

(** Once registered, the alias [staging] stays what it is. *)
Lemma staging_kept (o : operation) (self : PartitionedDatasetManager.t) :
  aliases self !! "staging" = Some (session_dataset_id self +:+ ".staging") ->
  aliases (after o self) !! "staging"
  = Some (session_dataset_id (after o self) +:+ ".staging").
Proof.
  intros H. rewrite after_dataset_id.
  destruct (is_write_tmp o) eqn:Ho.
  - destruct o as [| |n q c| | | | |]; try discriminate Ho.
    rewrite facade_write_tmp_registers.
    destruct (decide (n = "staging")) as [->|Hn].
    + by rewrite lookup_insert_eq, create_table_id_staging.
    + by rewrite lookup_insert_ne.
  - destruct (perform_keeps_aliases o Ho self) as (_ & _ & _ & _ & Hsame & _).
    unfold aliases_same in Hsame. unfold aliases, after. by rewrite Hsame.
Qed.

Lemma staging_kept_all (os : list operation) (self : PartitionedDatasetManager.t) :
  aliases self !! "staging" = Some (session_dataset_id self +:+ ".staging") ->
  aliases (after_all os self) !! "staging"
  = Some (session_dataset_id (after_all os self) +:+ ".staging").
Proof.
  revert self. induction os as [|o os IH]; intros self H; [exact H|].
  unfold after_all. cbn [foldl]. apply IH. by apply staging_kept.
Qed.

Lemma result_map_append (a b : string) (r : result string) :
  result_map (String.append a) (result_map (String.append b) r)
  = result_map (String.append (a +:+ b)) r.
Proof. destruct r; simpl; [by rewrite append_assoc | done]. Qed.

(** C9, as the code has it: no call loses an alias and only [write_tmp]
    changes the aliases; once [write_tmp] is called for [staging], the
    alias stays the id [staging] of the dataset, and a field
    [{staging}] is rendered as this id in every later call, as long as
    no external table and no extra is named [staging]. *)
Theorem aliases_grow_and_staging_resolves (self : PartitionedDatasetManager.t) :
  (forall os : list operation, dom (aliases self) ⊆ dom (aliases (after_all os self)))
  /\ (forall o : operation, is_write_tmp o = false -> aliases (after o self) = aliases self)
  /\ (forall (sql : string) (custom_run_datetime : pyval) (os : list operation),
        let registered := after (WriteTmp "staging" sql custom_run_datetime) self in
        let self' := after_all os registered in
        let id := session_dataset_id self +:+ ".staging" in
        aliases registered !! "staging" = Some id
        /\ aliases self' !! "staging" = Some id
        /\ (TemplatedDatasetManager.external_tables (templated self) !! "staging" = None ->
            TemplatedDatasetManager.extras (templated self) !! "staging" = None ->
            forall (custom_run_datetime' : pyval) (before behind : string),
              brace_free before = true ->
              let vars :=
                TemplatedDatasetManager.template_variables (templated self')
                  custom_run_datetime' in
              Format.format (before +:+ "{staging}" +:+ behind) vars
              = result_map (String.append (before +:+ id)) (Format.format behind vars))).
Proof.
  split_and!.
  - intros os. by destruct (after_all_keeps_session os self) as (_ & _ & _ & _ & H & _).
  - intros o Ho.
    by destruct (perform_keeps_aliases o Ho self) as (_ & _ & _ & _ & H & _).
  - intros sql c os registered self' id.
    assert (Hreg : aliases registered !! "staging"
                   = Some (session_dataset_id registered +:+ ".staging")).
    { subst registered. rewrite facade_write_tmp_registers, lookup_insert_eq.
      by rewrite create_table_id_staging, after_dataset_id. }
    assert (Hid : session_dataset_id self' = session_dataset_id self).
    { destruct (after_all_keeps_session (WriteTmp "staging" sql c :: os) self)
        as (_ & _ & _ & _ & _ & _ & H & _). exact H. }
    assert (Hlater : aliases self' !! "staging" = Some id).
    { subst self' id. rewrite <- Hid. by apply staging_kept_all. }
    split_and!.
    + subst id registered. by rewrite Hreg, after_dataset_id.
    + exact Hlater.
    + intros Hext Hextra c' before behind Hb vars.
      destruct (after_all_keeps_session (WriteTmp "staging" sql c :: os) self)
        as (_ & Hx & He & _).
      change (after_all (WriteTmp "staging" sql c :: os) self) with self' in Hx, He.
      unfold Format.format. rewrite (format_text _ _ _ Hb).
      change ("{staging}" +:+ behind) with (String "{" ("staging" +:+ String "}" behind)).
      rewrite format_field by reflexivity.
      subst vars. rewrite lookup_template_variables.
      rewrite decide_False by discriminate.
      rewrite He, Hextra, Hx, Hext. fold (aliases self'). rewrite Hlater. simpl.
      apply result_map_append.
Qed.

(** C9, as the claim has it, fails: with an extra named [staging], the
    field [{staging}] is rendered as the extra, not as the id that
    [write_tmp] registered. *)
Lemma staging_shadowed_by_extra : ~ staging_renders_registered_id.
Proof.
  intros H.
  destruct (H (stub_session [] false (PyStr "2020-01-01") []
                 ∅ {["staging" := "other.table"]})
              "SELECT 1" PyNone PyNone) as (id & Hreg & Hrender).
  vm_compute in Hreg. vm_compute in Hrender. congruence.
Qed.

(** C5, as the claim has it, fails: the run datetime ["2020-1-1"] gives
    the destination [orders$202011]. *)
Lemma suffix_of_six_digits : ~ every_suffix_has_eight_digits.
Proof.
  intros H.
  pose (job := Query "SELECT 1"
                 (Some (DatasetManager.write_job_config "proj.ds.orders$202011"
                          "WRITE_TRUNCATE"))).
  assert (Hbad : well_suffixed "proj.ds.orders$202011" = true); [|discriminate Hbad].
  apply (H (stub_session ["orders"] false (PyStr "2020-01-01") [] ∅ ∅)
           (WriteTruncate "orders" "SELECT 1" true (PyStr "2020-1-1")) job).
  - replace (writes_in _ _) with [job] by (vm_compute; reflexivity). constructor.
  - reflexivity.
Qed.

(** ** The existence check seen from the partitioned manager *)

Lemma templated_checked_write_refused (mode table_name sql : string)
    (custom_run_datetime : pyval) (self : TemplatedDatasetManager.t) (e : exn) :
  fst (DatasetManager.table_exists_or_error
         (TemplatedDatasetManager.create_table_id self table_name)
         (TemplatedDatasetManager.dataset_manager self)) = Raise e ->
  let m := TemplatedDatasetManager.write
             (fun t q => bind (DatasetManager.table_exists_or_error t)
                           (fun _ => DatasetManager.write t q mode))
             table_name sql custom_run_datetime in
  writes (submitted
            (DatasetManager.bigquery_client (TemplatedDatasetManager.dataset_manager self))
            (DatasetManager.bigquery_client
               (TemplatedDatasetManager.dataset_manager (snd (m self))))) = []
  /\ fst (m self) <> Ok tt.
Proof.
  intros He m. subst m. rewrite templated_write_run.
  destruct (Format.format sql _) as [rendered|e'].
  - unfold TemplatedDatasetManager.inner, zoom.
    destruct (checked_write_writes
                (TemplatedDatasetManager.create_table_id self table_name)
                rendered mode (TemplatedDatasetManager.dataset_manager self))
      as [(e' & _ & Hr & Hw)|[Hok _]]; [|congruence].
    cbn zeta in Hw, Hr. unfold writes_by in Hw.
    destruct (bind _ _ (TemplatedDatasetManager.dataset_manager self)) as [r d'].
    simpl in *. split; [exact Hw | congruence].
  - simpl. split; [by rewrite submitted_none | done].
Qed.

(** Through the partitioned manager too, [write_truncate] on a table
    that the check refuses submits no write and does not return,
    whether the SQL renders or not. *)
Lemma partitioned_write_truncate_refused
    (self : PartitionedDatasetManager.t) (table_name sql : string)
    (custom_run_datetime : pyval) (table_id : string) (e : exn) :
  table_id
  = TemplatedDatasetManager.create_table_id (templated self)
      (table_name +:+ "$" +:+
       py_str (py_or (get_partition_from_run_datetime_or_none custom_run_datetime)
                 (PartitionedDatasetManager.partition self))) ->
  fst (DatasetManager.table_exists_or_error table_id
         (TemplatedDatasetManager.dataset_manager (templated self))) = Raise e ->
  writes_in (WriteTruncate table_name sql true custom_run_datetime) self = []
  /\ fst (perform (WriteTruncate table_name sql true custom_run_datetime) self) <> Ok tt.
Proof.
  intros -> He.
  unfold writes_in, after, perform, PartitionedDatasetManager.write_truncate.
  rewrite partitioned_write_run.
  unfold PartitionedDatasetManager.inner, zoom, client_of.
  pose proof (templated_checked_write_refused "WRITE_TRUNCATE" _ sql
                custom_run_datetime (templated self) e He) as H.
  cbn zeta in H. unfold templated in *.
  change (TemplatedDatasetManager.write _ ?n sql custom_run_datetime)
    with (TemplatedDatasetManager.write_truncate n sql custom_run_datetime) in H.
  destruct (TemplatedDatasetManager.write_truncate _ sql custom_run_datetime
              (PartitionedDatasetManager._dataset_manager self)) as [r t'].
  exact H.
Qed.

(** ** Examples *)

Example format_missing_key :
  Format.format "SELECT * FROM {missing}" ∅ = Raise (KeyError "missing").
Proof. vm_compute. reflexivity. Qed.

Example format_positional_field :
  Format.format "SELECT {}" {["dt" := PyStr "2020-01-01"]}
  = Raise (IndexError "Replacement index out of range for positional args tuple").
Proof. vm_compute. reflexivity. Qed.

Example format_single_brace :
  Format.format "SELECT 1 }" ∅
  = Raise (ValueError "Single '}' encountered in format string").
Proof. vm_compute. reflexivity. Qed.

Example format_escaped_braces :
  Format.format "a{{b}}c {x}" {["x" := PyStr "1"]} = Ok "a{b}c 1".
Proof. vm_compute. reflexivity. Qed.

(** A value with braces is not rendered again by the same call, but is
    read as a field by a second one. *)
Example format_value_with_braces :
  Format.format "{a}" {["a" := PyStr "{b}"]} = Ok "{b}"
  /\ Format.format "{b}" {["a" := PyStr "{b}"]} = Raise (KeyError "b").
Proof. split; vm_compute; reflexivity. Qed.

(** [write_tmp] registers the alias when the SQL does not render. *)
Example write_tmp_registers_when_rendering_fails :
  fst (TemplatedDatasetManager.write_tmp "staging" "SELECT {missing}" PyNone
         (stub_templated [] false ∅ ∅ ∅ (PyStr "2020-01-01")))
  = Raise (KeyError "missing")
  /\ TemplatedDatasetManager.internal_tables
       (snd (TemplatedDatasetManager.write_tmp "staging" "SELECT {missing}" PyNone
               (stub_templated [] false ∅ ∅ ∅ (PyStr "2020-01-01"))))
       !! "staging" = Some "proj.ds.staging".
Proof. split; vm_compute; reflexivity. Qed.

(** Without a run datetime the session has no partition, and a
    partitioned call appends the name of [None]. *)
Example suffix_without_run_datetime
    (write_callable : PartitionedDatasetManager.writer) :
  PartitionedDatasetManager._write write_callable "orders" "SELECT 1" true PyNone
    (stub_session ["orders"] false PyNone [] ∅ ∅)
  = PartitionedDatasetManager.inner (write_callable "orders$None" "SELECT 1" PyNone)
      (stub_session ["orders"] false PyNone [] ∅ ∅).
Proof. rewrite partitioned_write_run. reflexivity. Qed.

(** ** The theorems at work on the stub engine *)

Lemma write_refused_without_base_table_witness :
  DatasetManager.base_table_name "proj.ds.orders$20200101" = Ok "orders"
  /\ fst (DatasetManager.table_exists "orders" (stub_dataset_manager [] false)) = Ok false
  /\ fst (DatasetManager.write_truncate "proj.ds.orders$20200101" "SELECT 1"
            (stub_dataset_manager [] false))
     = Raise (ValueError "Table proj.ds.orders$20200101 does not exist")
  /\ writes_by (DatasetManager.write_truncate "proj.ds.orders$20200101" "SELECT 1")
       (stub_dataset_manager [] false) = [].
Proof.
  assert (Hb : DatasetManager.base_table_name "proj.ds.orders$20200101" = Ok "orders")
    by reflexivity.
  assert (Hm : fst (DatasetManager.table_exists "orders" (stub_dataset_manager [] false))
               = Ok false)
    by (vm_compute; reflexivity).
  split; [exact Hb|]. split; [exact Hm|].
  exact (proj1 (write_refused_without_base_table (stub_dataset_manager [] false)
                  "proj.ds.orders$20200101" "SELECT 1" "orders" Hb Hm)).
Defined.


Lemma partition_suffix_of_dated_runtime_witness :
  py_or (get_partition_from_run_datetime_or_none (PyStr "2020-02-03 10:00:00"))
    (PartitionedDatasetManager.partition
       (stub_session ["orders"] false (PyStr "2020-01-01") [] ∅ ∅))
  = get_partition_from_run_datetime_or_none (PyStr "2020-02-03 10:00:00")
  /\ date_prefixed "2020-02-03 10:00:00" = true
  /\ exists d : string,
       eight_digits d = true
       /\ PartitionedDatasetManager._write TemplatedDatasetManager.write_truncate
            "orders" "SELECT 1" true (PyStr "2020-02-03 10:00:00")
            (stub_session ["orders"] false (PyStr "2020-01-01") [] ∅ ∅)
          = PartitionedDatasetManager.inner
              (TemplatedDatasetManager.write_truncate ("orders" +:+ "$" +:+ d)
                 "SELECT 1" (PyStr "2020-02-03 10:00:00"))
              (stub_session ["orders"] false (PyStr "2020-01-01") [] ∅ ∅).
Proof.
  split; [reflexivity|]. split; [reflexivity|].
  apply (proj2 (partition_suffix_of_dated_runtime
                  (stub_session ["orders"] false (PyStr "2020-01-01") [] ∅ ∅)
                  TemplatedDatasetManager.write_truncate "orders" "SELECT 1"
                  (PyStr "2020-02-03 10:00:00"))
           "2020-02-03 10:00:00"); reflexivity.
Defined.


Lemma context_precedence_witness :
  TemplatedDatasetManager.internal_tables
    (stub_templated [] false {["t" := "A"]} ∅ {["t" := "B"]} (PyStr "2020-01-01"))
    !! "t" = Some "A"
  /\ TemplatedDatasetManager.extras
       (stub_templated [] false {["t" := "A"]} ∅ {["t" := "B"]} (PyStr "2020-01-01"))
       !! "t" = Some "B"
  /\ "t" <> "dt"
  /\ TemplatedDatasetManager.template_variables
       (stub_templated [] false {["t" := "A"]} ∅ {["t" := "B"]} (PyStr "2020-01-01"))
       PyNone !! "t" = Some (PyStr "B")
  /\ Format.format "{t}"
       (TemplatedDatasetManager.template_variables
          (stub_templated [] false {["t" := "A"]} ∅ {["t" := "B"]} (PyStr "2020-01-01"))
          PyNone) = Ok "B".
Proof.
  assert (Hi : TemplatedDatasetManager.internal_tables
                 (stub_templated [] false {["t" := "A"]} ∅ {["t" := "B"]}
                    (PyStr "2020-01-01")) !! "t" = Some "A")
    by (vm_compute; reflexivity).
  assert (Hx : TemplatedDatasetManager.extras
                 (stub_templated [] false {["t" := "A"]} ∅ {["t" := "B"]}
                    (PyStr "2020-01-01")) !! "t" = Some "B")
    by (vm_compute; reflexivity).
  assert (Hn : "t" <> "dt") by discriminate.
  split; [exact Hi|]. split; [exact Hx|]. split; [exact Hn|]. split.
  - exact (proj1 (context_precedence _ PyNone) "t" "B" Hx Hn).
  - exact (proj2 (proj2 (context_precedence _ PyNone)) "A" "B" Hi Hx).
Defined.


Lemma aliases_grow_and_staging_resolves_witness :
  is_write_tmp (Collect "SELECT 2" PyNone) = false
  /\ aliases (after (Collect "SELECT 2" PyNone)
                (stub_session [] false (PyStr "2020-01-01") [] ∅ ∅))
     = aliases (stub_session [] false (PyStr "2020-01-01") [] ∅ ∅)
  /\ TemplatedDatasetManager.external_tables
       (templated (stub_session [] false (PyStr "2020-01-01") [] ∅ ∅)) !! "staging" = None
  /\ TemplatedDatasetManager.extras
       (templated (stub_session [] false (PyStr "2020-01-01") [] ∅ ∅)) !! "staging" = None
  /\ brace_free "SELECT * FROM " = true
  /\ Format.format ("SELECT * FROM " +:+ "{staging}" +:+ "")
       (TemplatedDatasetManager.template_variables
          (templated
             (after_all [Collect "SELECT 2" PyNone]
                (after (WriteTmp "staging" "SELECT 1" PyNone)
                   (stub_session [] false (PyStr "2020-01-01") [] ∅ ∅))))
          PyNone)
     = Ok "SELECT * FROM proj.ds.staging".
Proof.
  assert (Ho : is_write_tmp (Collect "SELECT 2" PyNone) = false) by reflexivity.
  assert (He : TemplatedDatasetManager.external_tables
                 (templated (stub_session [] false (PyStr "2020-01-01") [] ∅ ∅))
                 !! "staging" = None) by (vm_compute; reflexivity).
  assert (Hx : TemplatedDatasetManager.extras
                 (templated (stub_session [] false (PyStr "2020-01-01") [] ∅ ∅))
                 !! "staging" = None) by (vm_compute; reflexivity).
  assert (Hb : brace_free "SELECT * FROM " = true) by reflexivity.
  split; [exact Ho|]. split.
  { exact (proj1 (proj2 (aliases_grow_and_staging_resolves _)) _ Ho). }
  split; [exact He|]. split; [exact Hx|]. split; [exact Hb|].
  exact (proj2 (proj2 (proj2 (proj2 (aliases_grow_and_staging_resolves _))
                         "SELECT 1" PyNone [Collect "SELECT 2" PyNone]))
           He Hx PyNone "SELECT * FROM " "" Hb).
Defined.

Lemma write_tmp_registers_before_failing_witness :
  fst (TemplatedDatasetManager.write_tmp "staging" "SELECT 1" PyNone
         (stub_templated [] true ∅ ∅ ∅ (PyStr "2020-01-01")))
  = Raise (JobError "quota exceeded")
  /\ TemplatedDatasetManager.internal_tables
       (snd (TemplatedDatasetManager.write_tmp "staging" "SELECT 1" PyNone
               (stub_templated [] true ∅ ∅ ∅ (PyStr "2020-01-01"))))
       !! "staging"
     = Some (TemplatedDatasetManager.create_table_id
               (stub_templated [] true ∅ ∅ ∅ (PyStr "2020-01-01")) "staging").
Proof.
  assert (Hf : fst (TemplatedDatasetManager.write_tmp "staging" "SELECT 1" PyNone
                      (stub_templated [] true ∅ ∅ ∅ (PyStr "2020-01-01")))
               = Raise (JobError "quota exceeded"))
    by (vm_compute; reflexivity).
  split; [exact Hf|].
  exact (proj2 (write_tmp_registers_before_failing _ _ _ _ _ Hf)).
Defined.

(** * Further properties of the module *)

(** ** Table ids *)

Lemma split_without_separator (sep : ascii) (s : string) :
  Str.has_char sep s = false -> Str.split sep s = [s].
Proof.
  induction s as [|c s IH]; [done|].
  cbn [Str.has_char Str.split]. intros [Hc Hs]%orb_false_iff.
  by rewrite Hc, (IH Hs).
Qed.

Lemma split_at_separator (sep : ascii) (a b : string) :
  Str.has_char sep a = false ->
  Str.split sep (a +:+ String sep b) = a :: Str.split sep b.
Proof.
  induction a as [|c a IH]; intros Ha.
  - rewrite append_nil_l. cbn [Str.split].
    by rewrite (proj2 (is_char_true sep sep) eq_refl).
  - cbn [Str.has_char] in Ha. apply orb_false_iff in Ha as [Hc Ha].
    rewrite append_cons. cbn [Str.split]. by rewrite Hc, (IH Ha).
Qed.

Lemma replace_absent (c : ascii) (u new s : string) :
  occurs_in (String c u) s = false -> Str.replace (String c u) new s = s.
Proof.
  unfold Str.replace. induction s as [|a s IH]; [done|].
  cbn [occurs_in Str.replace_from]. intros [Hp Hs]%orb_false_iff.
  by rewrite Hp, (IH Hs).
Qed.

Lemma create_table_id_plain (self : TemplatedDatasetManager.t) (table_name : string) :
  Str.has_char "$" table_name = false ->
  TemplatedDatasetManager.create_table_id self table_name
  = TemplatedDatasetManager.create_full_table_id self table_name.
Proof.
  intros Hn. unfold TemplatedDatasetManager.create_table_id.
  rewrite (split_without_separator _ _ Hn). cbn [hd].
  destruct table_name as [|c u]; [reflexivity|].
  rewrite <- (append_nil_r (String c u)) at 3.
  rewrite replace_occurrence. change (Str.replace (String c u) _ "") with "".
  apply append_nil_r.
Qed.

(** X1: for a table name without a dollar sign, [create_table_id] is
    [create_full_table_id]: the alias that [write_tmp] registers is the
    one that [__init__] registers for the same name. *)
Theorem create_table_id_unpartitioned
    (self : TemplatedDatasetManager.t) (table_name : string) :
  Str.has_char "$" table_name = false ->
  TemplatedDatasetManager.create_table_id self table_name
  = TemplatedDatasetManager.create_full_table_id self table_name.
Proof. apply create_table_id_plain. Qed.

Lemma create_table_id_unpartitioned_witness :
  Str.has_char "$" "staging" = false
  /\ TemplatedDatasetManager.create_table_id
       (stub_templated [] false ∅ ∅ ∅ (PyStr "2020-01-01")) "staging"
     = TemplatedDatasetManager.create_full_table_id
         (stub_templated [] false ∅ ∅ ∅ (PyStr "2020-01-01")) "staging".
Proof.
  split; [reflexivity|].
  apply create_table_id_unpartitioned. reflexivity.
Defined.

Lemma create_table_id_suffixed
    (self : TemplatedDatasetManager.t) (c : ascii) (u suffix : string) :
  Str.has_char "$" (String c u) = false ->
  TemplatedDatasetManager.create_table_id self (String c u +:+ String "$" suffix)
  = TemplatedDatasetManager.create_full_table_id self (String c u)
    +:+ Str.replace (String c u)
          (TemplatedDatasetManager.create_full_table_id self (String c u))
          (String "$" suffix).
Proof.
  intros Hb. unfold TemplatedDatasetManager.create_table_id.
  rewrite (split_at_separator _ _ _ Hb). cbn [hd].
  by rewrite replace_occurrence.
Qed.

(** X2: for a table name [base$suffix] whose base is not empty and has
    no dollar sign, [create_table_id] puts the full id in place of the
    base and of every later occurrence of the base in [$suffix]; when
    the base does not occur there, the id is the full id of the base
    followed by [$suffix]. *)
Theorem create_table_id_partitioned
    (self : TemplatedDatasetManager.t) (c : ascii) (u suffix : string) :
  Str.has_char "$" (String c u) = false ->
  let base := String c u in
  let full := TemplatedDatasetManager.create_full_table_id self base in
  TemplatedDatasetManager.create_table_id self (base +:+ String "$" suffix)
  = full +:+ Str.replace base full (String "$" suffix)
  /\ (occurs_in base (String "$" suffix) = false ->
      TemplatedDatasetManager.create_table_id self (base +:+ String "$" suffix)
      = full +:+ String "$" suffix).
Proof.
  intros Hb base full.
  assert (H : TemplatedDatasetManager.create_table_id self (base +:+ String "$" suffix)
              = full +:+ Str.replace base full (String "$" suffix))
    by (by apply create_table_id_suffixed).
  split; [exact H|].
  intros Ho. rewrite H. subst base. by rewrite (replace_absent _ _ _ _ Ho).
Qed.

Lemma create_table_id_partitioned_witness :
  Str.has_char "$" "orders" = false
  /\ occurs_in "orders" "$20200202" = false
  /\ TemplatedDatasetManager.create_table_id
       (stub_templated [] false ∅ ∅ ∅ (PyStr "2020-01-01")) "orders$20200202"
     = "proj.ds.orders$20200202"
  /\ TemplatedDatasetManager.create_table_id
       (stub_templated [] false ∅ ∅ ∅ (PyStr "2020-01-01")) "1$20200101"
     = "proj.ds.1$20200proj.ds.10proj.ds.1".
Proof.
  assert (Hb : Str.has_char "$" "orders" = false) by reflexivity.
  assert (Ho : occurs_in "orders" "$20200202" = false) by reflexivity.
  split; [exact Hb|]. split; [exact Ho|]. split.
  - exact (proj2 (create_table_id_partitioned
                    (stub_templated [] false ∅ ∅ ∅ (PyStr "2020-01-01"))
                    "o" "rders" "20200202" Hb) Ho).
  - exact (proj1 (create_table_id_partitioned
                    (stub_templated [] false ∅ ∅ ∅ (PyStr "2020-01-01"))
                    "1" "" "20200101" eq_refl)).
Defined.

Lemma has_char_append (d : ascii) (a b : string) :
  Str.has_char d (a +:+ b) = Str.has_char d a || Str.has_char d b.
Proof.
  induction a as [|c a IH]; [done|].
  rewrite append_cons. cbn [Str.has_char]. by rewrite IH, orb_assoc.
Qed.

Lemma plain_part_chars (s : string) :
  plain_part s = true -> Str.has_char "." s = false /\ Str.has_char "$" s = false.
Proof.
  unfold plain_part. intros [H1 H2]%andb_true_iff.
  split; by apply negb_true_iff.
Qed.


(** X3: for the id that the templated manager builds from a dataset id
    [project.dataset] and a table name, with or without a partition,
    the existence check looks for the table name: the third part of
    the id before the dollar sign. *)
Theorem base_table_name_of_table_id (project dataset table suffix : string) :
  plain_part project = true ->
  plain_part dataset = true ->
  plain_part table = true ->
  let id := project +:+ String "." (dataset +:+ String "." table) in
  DatasetManager.base_table_name id = Ok table
  /\ DatasetManager.base_table_name (id +:+ String "$" suffix) = Ok table.
Proof.
  intros [Hp1 Hp2]%plain_part_chars [Hd1 Hd2]%plain_part_chars
    [Ht1 Ht2]%plain_part_chars id.
  assert (Hid : Str.has_char "$" id = false).
  { subst id. rewrite has_char_append. cbn [Str.has_char].
    rewrite has_char_append. cbn [Str.has_char].
    by rewrite Hp2, Hd2, Ht2. }
  assert (Hparts : Str.split "." id = [project; dataset; table]).
  { subst id. rewrite (split_at_separator _ _ _ Hp1), (split_at_separator _ _ _ Hd1).
    by rewrite (split_without_separator _ _ Ht1). }
  unfold DatasetManager.base_table_name. split.
  - rewrite (split_without_separator _ _ Hid). cbn. by rewrite Hparts.
  - rewrite (split_at_separator _ _ _ Hid). cbn. by rewrite Hparts.
Qed.

Lemma base_table_name_of_table_id_witness :
  plain_part "proj" = true
  /\ plain_part "ds" = true
  /\ plain_part "orders" = true
  /\ DatasetManager.base_table_name "proj.ds.orders$20200101" = Ok "orders".
Proof.
  split; [reflexivity|]. split; [reflexivity|]. split; [reflexivity|].
  exact (proj2 (base_table_name_of_table_id "proj" "ds" "orders" "20200101"
                  eq_refl eq_refl eq_refl)).
Defined.

Lemma split_not_nil (sep : ascii) (s : string) : Str.split sep s <> [].
Proof.
  destruct s as [|c s]; [done|]. cbn [Str.split].
  destruct (Str.is_char c sep); [done|]. by destruct (Str.split sep s).
Qed.

(** X4: when the table id has fewer than three parts between dots
    before the dollar sign, [write_truncate] and [write_append] raise
    [IndexError] before any call to the client: the manager is left as
    it was. *)
Theorem write_with_short_table_id
    (self : DatasetManager.t) (table_id sql : string) :
  length (Str.split "." (hd "" (Str.split "$" table_id))) < 3 ->
  DatasetManager.write_truncate table_id sql self
  = (Raise (IndexError "list index out of range"), self)
  /\ DatasetManager.write_append table_id sql self
     = (Raise (IndexError "list index out of range"), self).
Proof.
  intros H.
  assert (Hb : DatasetManager.base_table_name table_id
               = Raise (IndexError "list index out of range")).
  { unfold DatasetManager.base_table_name, Str.index.
    pose proof (split_not_nil "$" table_id) as Hne.
    destruct (Str.split "$" table_id) as [|h t]; [done|].
    cbn in *. by rewrite (lookup_ge_None_2 _ 2) by lia. }
  unfold DatasetManager.write_truncate, DatasetManager.write_append,
    DatasetManager.table_exists_or_error, bind, lift.
  by rewrite Hb.
Qed.

Lemma write_with_short_table_id_witness :
  length (Str.split "." (hd "" (Str.split "$" "ds.orders$20200101"))) < 3
  /\ DatasetManager.write_truncate "ds.orders$20200101" "SELECT 1"
       (stub_dataset_manager ["orders"] false)
     = (Raise (IndexError "list index out of range"),
        stub_dataset_manager ["orders"] false).
Proof.
  assert (H : length (Str.split "." (hd "" (Str.split "$" "ds.orders$20200101"))) < 3)
    by (vm_compute; lia).
  split; [exact H|].
  exact (proj1 (write_with_short_table_id _ _ "SELECT 1" H)).
Defined.

(** ** The calls that the manager makes *)

Lemma table_exists_template_rendered (dataset_id table_name : string) :
  Format.format DatasetManager.table_exists_template
    (<["dataset_id" := PyStr dataset_id]> {["table_name" := PyStr table_name]})
  = Ok (table_exists_query dataset_id table_name).
Proof. vm_compute. reflexivity. Qed.

Lemma table_exists_run (table_name : string) (self : DatasetManager.t) :
  DatasetManager.table_exists table_name self
  = let probe :=
      Query (table_exists_query (DatasetManager.dataset_id self) table_name) None in
    let cl := DatasetManager.bigquery_client self in
    let self' := DatasetManager.set_client (BigQuery.record probe cl) self in
    match respond cl (calls cl) probe with
    | Failed msg => (Raise (JobError msg), self')
    | Rows rs => (BigQuery.first_positive "table_exists" rs, self')
    end.
Proof.
  unfold DatasetManager.table_exists, bind, gets, lift.
  rewrite table_exists_template_rendered.
  unfold DatasetManager.client, zoom, BigQuery.query, BigQuery.request. cbn zeta.
  by destruct (respond _ _ _).
Qed.

(** X5: [table_exists] makes one call, the query of the tables of the
    dataset with the dataset id and the table name copied into its
    text as they are; it raises what the engine raises, and otherwise
    answers whether the count in the first row is positive. *)
Theorem table_exists_makes_one_query (table_name : string) (self : DatasetManager.t) :
  let probe :=
    Query (table_exists_query (DatasetManager.dataset_id self) table_name) None in
  let cl := DatasetManager.bigquery_client self in
  submitted cl (DatasetManager.bigquery_client
                  (snd (DatasetManager.table_exists table_name self))) = [probe]
  /\ fst (DatasetManager.table_exists table_name self)
     = match respond cl (calls cl) probe with
       | Failed msg => Raise (JobError msg)
       | Rows rs => BigQuery.first_positive "table_exists" rs
       end.
Proof.
  intros probe cl. rewrite table_exists_run. cbn zeta. fold probe cl.
  destruct (respond cl (calls cl) probe); simpl; split; try done;
    by apply submitted_app.
Qed.





(** X7: when the existence query itself fails, [write_truncate] and
    [write_append] raise the error of the engine as it is, and the
    query is the only call made: no job is submitted. *)
Theorem checked_write_propagates_probe_failure
    (table_id sql table_name : string) (self : DatasetManager.t) (e : exn) :
  DatasetManager.base_table_name table_id = Ok table_name ->
  fst (DatasetManager.table_exists table_name self) = Raise e ->
  let probe :=
    Query (table_exists_query (DatasetManager.dataset_id self) table_name) None in
  let cl := DatasetManager.bigquery_client self in
  (fst (DatasetManager.write_truncate table_id sql self) = Raise e
   /\ submitted cl (DatasetManager.bigquery_client
                      (snd (DatasetManager.write_truncate table_id sql self))) = [probe])
  /\ (fst (DatasetManager.write_append table_id sql self) = Raise e
      /\ submitted cl (DatasetManager.bigquery_client
                         (snd (DatasetManager.write_append table_id sql self)))
         = [probe]).
Proof.
  intros Hb Hex probe cl.
  unfold DatasetManager.write_truncate, DatasetManager.write_append,
    DatasetManager.table_exists_or_error, bind, lift.
  rewrite Hb.
  rewrite table_exists_run in Hex |- *. cbn zeta in Hex |- *. fold probe cl in Hex |- *.
  destruct (respond cl (calls cl) probe) as [msg|rs]; simpl in Hex |- *.
  - injection Hex as <-. repeat split; by apply submitted_app.
  - rewrite Hex. simpl. repeat split; by apply submitted_app.
Qed.

Lemma checked_write_propagates_probe_failure_witness :
  DatasetManager.base_table_name "proj.ds.orders" = Ok "orders"
  /\ fst (DatasetManager.table_exists "orders"
            (DatasetManager.__init__
               {| project := "proj"; respond := fun _ _ => Failed "no access"; calls := [] |}
               stub_dataset))
     = Raise (JobError "no access")
  /\ fst (DatasetManager.write_truncate "proj.ds.orders" "SELECT 1"
            (DatasetManager.__init__
               {| project := "proj"; respond := fun _ _ => Failed "no access"; calls := [] |}
               stub_dataset))
     = Raise (JobError "no access").
Proof.
  assert (Hb : DatasetManager.base_table_name "proj.ds.orders" = Ok "orders")
    by reflexivity.
  assert (Hex : fst (DatasetManager.table_exists "orders"
            (DatasetManager.__init__
               {| project := "proj"; respond := fun _ _ => Failed "no access"; calls := [] |}
               stub_dataset))
     = Raise (JobError "no access")) by (vm_compute; reflexivity).
  split; [exact Hb|]. split; [exact Hex|].
  exact (proj1 (proj1 (checked_write_propagates_probe_failure "proj.ds.orders"
                         "SELECT 1" "orders" _ _ Hb Hex))).
Defined.

(** ** Fields of the SQL *)

Lemma lookup_tables_union (self : TemplatedDatasetManager.t) (k : string) :
  (TemplatedDatasetManager.extras self ∪ TemplatedDatasetManager.external_tables self
   ∪ TemplatedDatasetManager.internal_tables self) !! k
  = match TemplatedDatasetManager.extras self !! k with
    | Some v => Some v
    | None =>
        match TemplatedDatasetManager.external_tables self !! k with
        | Some v => Some v
        | None => TemplatedDatasetManager.internal_tables self !! k
        end
    end.
Proof.
  rewrite !lookup_union.
  by destruct (TemplatedDatasetManager.extras self !! k),
    (TemplatedDatasetManager.external_tables self !! k),
    (TemplatedDatasetManager.internal_tables self !! k).
Qed.

(** X8: a field [{name}] other than [{dt}] is rendered as the extra of
    this name, else as the external table, else as the internal table;
    when the name is none of them, rendering raises [KeyError] with the
    name. *)
Theorem field_of_context
    (self : TemplatedDatasetManager.t) (custom_run_datetime : pyval)
    (name before behind : string) :
  key_name name = true ->
  name <> "dt" ->
  brace_free before = true ->
  let vars := TemplatedDatasetManager.template_variables self custom_run_datetime in
  Format.format (before +:+ String "{" (name +:+ String "}" behind)) vars
  = match (TemplatedDatasetManager.extras self
           ∪ TemplatedDatasetManager.external_tables self
           ∪ TemplatedDatasetManager.internal_tables self) !! name with
    | Some v => result_map (String.append (before +:+ v)) (Format.format behind vars)
    | None => Raise (KeyError name)
    end.
Proof.
  intros Hk Hdt Hb vars. unfold Format.format.
  rewrite (format_text _ _ _ Hb), (format_field _ _ _ Hk).
  subst vars. rewrite lookup_template_variables, decide_False by done.
  rewrite lookup_tables_union.
  destruct (TemplatedDatasetManager.extras self !! name) as [v|];
    [simpl; apply result_map_append|].
  destruct (TemplatedDatasetManager.external_tables self !! name) as [v|];
    [simpl; apply result_map_append|].
  destruct (TemplatedDatasetManager.internal_tables self !! name) as [v|];
    [simpl; apply result_map_append|done].
Qed.

Lemma field_of_context_witness :
  key_name "users" = true
  /\ "users" <> "dt"
  /\ brace_free "SELECT * FROM " = true
  /\ Format.format ("SELECT * FROM " +:+ String "{" ("users" +:+ String "}" ""))
       (TemplatedDatasetManager.template_variables
          (stub_templated [] false {["users" := "proj.ds.users"]}
             {["users" := "other.ds.users"]} ∅ (PyStr "2020-01-01")) PyNone)
     = Ok "SELECT * FROM other.ds.users"
  /\ Format.format ("SELECT * FROM " +:+ String "{" ("users" +:+ String "}" ""))
       (TemplatedDatasetManager.template_variables
          (stub_templated [] false ∅ ∅ ∅ (PyStr "2020-01-01")) PyNone)
     = Raise (KeyError "users").
Proof.
  assert (Hk : key_name "users" = true) by reflexivity.
  assert (Hd : "users" <> "dt") by discriminate.
  assert (Hb : brace_free "SELECT * FROM " = true) by reflexivity.
  split; [exact Hk|]. split; [exact Hd|]. split; [exact Hb|]. split.
  - exact (field_of_context
             (stub_templated [] false {["users" := "proj.ds.users"]}
                {["users" := "other.ds.users"]} ∅ (PyStr "2020-01-01"))
             PyNone "users" "SELECT * FROM " "" Hk Hd Hb).
  - exact (field_of_context (stub_templated [] false ∅ ∅ ∅ (PyStr "2020-01-01"))
             PyNone "users" "SELECT * FROM " "" Hk Hd Hb).
Defined.

(** X9: the field [{dt}] is always rendered, as [custom_run_datetime]
    when it is a string that is not empty and as the run datetime of
    the manager otherwise, whatever the tables and the extras are
    named; a run datetime that is [None] is rendered as the text
    [None]. *)
Theorem dt_field_always_renders
    (self : TemplatedDatasetManager.t) (custom_run_datetime : pyval)
    (before behind : string) :
  brace_free before = true ->
  let vars := TemplatedDatasetManager.template_variables self custom_run_datetime in
  Format.format (before +:+ String "{" ("dt" +:+ String "}" behind)) vars
  = result_map
      (String.append
         (before +:+
          match custom_run_datetime with
          | PyStr (String c s) => String c s
          | _ => py_str (TemplatedDatasetManager.run_datetime self)
          end))
      (Format.format behind vars).
Proof.
  intros Hb vars. unfold Format.format.
  rewrite (format_text _ _ _ Hb), format_field by reflexivity.
  subst vars. rewrite lookup_template_variables. simpl.
  rewrite result_map_append.
  by destruct custom_run_datetime as [|[|c s]].
Qed.

Lemma dt_field_always_renders_witness :
  brace_free "WHERE day = '" = true
  /\ Format.format ("WHERE day = '" +:+ String "{" ("dt" +:+ String "}" "'"))
       (TemplatedDatasetManager.template_variables
          (stub_templated [] false ∅ ∅ {["dt" := "extra"]} PyNone) (PyStr ""))
     = Ok "WHERE day = 'None'".
Proof.
  assert (Hb : brace_free "WHERE day = '" = true) by reflexivity.
  split; [exact Hb|].
  exact (dt_field_always_renders
           (stub_templated [] false ∅ ∅ {["dt" := "extra"]} PyNone) (PyStr "")
           "WHERE day = '" "'" Hb).
Defined.

(** ** Calls on the partitioned manager *)

Lemma partitioned_eta (self : PartitionedDatasetManager.t) :
  PartitionedDatasetManager.set_dataset_manager
    (PartitionedDatasetManager._dataset_manager self) self = self.
Proof. by destruct self. Qed.

Lemma templated_eta (self : TemplatedDatasetManager.t) :
  TemplatedDatasetManager.set_dataset_manager
    (TemplatedDatasetManager.dataset_manager self) self = self.
Proof. by destruct self. Qed.

(** X10: when the SQL does not render, [write_truncate],
    [write_append] and [collect] raise the error of the rendering and
    leave the manager as it was: no call is made to the client, not
    even the existence query. *)
Theorem rendering_failure_makes_no_call
    (self : PartitionedDatasetManager.t) (table_name sql : string)
    (partitioned : bool) (custom_run_datetime : pyval) (e : exn) :
  Format.format sql
    (TemplatedDatasetManager.template_variables (templated self) custom_run_datetime)
  = Raise e ->
  e <> Unmodelled ->
  perform (WriteTruncate table_name sql partitioned custom_run_datetime) self
  = (Raise e, self)
  /\ perform (WriteAppend table_name sql partitioned custom_run_datetime) self
     = (Raise e, self)
  /\ perform (Collect sql custom_run_datetime) self = (Raise e, self).
Proof.
  intros H _. unfold templated in H. split_and!.
  - unfold perform, PartitionedDatasetManager.write_truncate.
    rewrite partitioned_write_run.
    unfold PartitionedDatasetManager.inner, zoom, TemplatedDatasetManager.write_truncate.
    rewrite templated_write_run, H. by rewrite partitioned_eta.
  - unfold perform, PartitionedDatasetManager.write_append.
    rewrite partitioned_write_run.
    unfold PartitionedDatasetManager.inner, zoom, TemplatedDatasetManager.write_append.
    rewrite templated_write_run, H. by rewrite partitioned_eta.
  - unfold perform, discard, PartitionedDatasetManager.collect,
      PartitionedDatasetManager.inner, zoom, TemplatedDatasetManager.collect,
      bind, gets, lift.
    rewrite H. by rewrite partitioned_eta.
Qed.

Lemma rendering_failure_makes_no_call_witness :
  Format.format "SELECT * FROM {missing}"
    (TemplatedDatasetManager.template_variables
       (templated (stub_session [] false (PyStr "2020-01-01") [] ∅ ∅)) PyNone)
  = Raise (KeyError "missing")
  /\ KeyError "missing" <> Unmodelled
  /\ perform (WriteTruncate "orders" "SELECT * FROM {missing}" true PyNone)
       (stub_session [] false (PyStr "2020-01-01") [] ∅ ∅)
     = (Raise (KeyError "missing"), stub_session [] false (PyStr "2020-01-01") [] ∅ ∅).
Proof.
  assert (H : Format.format "SELECT * FROM {missing}"
                (TemplatedDatasetManager.template_variables
                   (templated (stub_session [] false (PyStr "2020-01-01") [] ∅ ∅)) PyNone)
              = Raise (KeyError "missing")) by (vm_compute; reflexivity).
  split; [exact H|]. split; [discriminate|].
  exact (proj1 (rendering_failure_makes_no_call _ "orders" _ true _ _ H
                  ltac:(discriminate))).
Defined.

(** X11: [collect] makes one call, the query with the rendered SQL and
    no job configuration; it returns the rows that the engine answers,
    as they are and in their order, and raises when the engine fails
    the query. *)
Theorem collect_returns_rows_of_engine
    (self : PartitionedDatasetManager.t) (sql rendered : string)
    (custom_run_datetime : pyval) :
  Format.format sql
    (TemplatedDatasetManager.template_variables (templated self) custom_run_datetime)
  = Ok rendered ->
  let cl := client_of self in
  let self' := snd (PartitionedDatasetManager.collect sql custom_run_datetime self) in
  submitted cl (client_of self') = [Query rendered None]
  /\ fst (PartitionedDatasetManager.collect sql custom_run_datetime self)
     = match respond cl (calls cl) (Query rendered None) with
       | Failed msg => Raise (JobError msg)
       | Rows rows => Ok rows
       end.
Proof.
  intros H cl self'. subst self' cl. unfold templated in H.
  unfold PartitionedDatasetManager.collect, PartitionedDatasetManager.inner, zoom,
    TemplatedDatasetManager.collect, bind, gets, lift.
  rewrite H.
  unfold TemplatedDatasetManager.inner, zoom, DatasetManager.collect,
    DatasetManager.client, zoom, BigQuery.query, BigQuery.request, client_of, templated.
  destruct (respond _ _ _); simpl; split; try done; by apply submitted_app.
Qed.

Lemma collect_returns_rows_of_engine_witness :
  Format.format "SELECT {n}"
    (TemplatedDatasetManager.template_variables
       (templated
          (PartitionedDatasetManager.__init__
             (TemplatedDatasetManager.__init__
                (DatasetManager.__init__
                   {| project := "proj";
                      respond := fun _ _ => Rows [[("x", Int 2)]; [("x", Int 1)]];
                      calls := [] |} stub_dataset)
                [] ∅ {["n" := "x"]} PyNone) PyNone)) PyNone)
  = Ok "SELECT x"
  /\ fst (PartitionedDatasetManager.collect "SELECT {n}" PyNone
            (PartitionedDatasetManager.__init__
               (TemplatedDatasetManager.__init__
                  (DatasetManager.__init__
                     {| project := "proj";
                        respond := fun _ _ => Rows [[("x", Int 2)]; [("x", Int 1)]];
                        calls := [] |} stub_dataset)
                  [] ∅ {["n" := "x"]} PyNone) PyNone))
     = Ok [[("x", Int 2)]; [("x", Int 1)]].
Proof.
  assert (H : Format.format "SELECT {n}"
    (TemplatedDatasetManager.template_variables
       (templated
          (PartitionedDatasetManager.__init__
             (TemplatedDatasetManager.__init__
                (DatasetManager.__init__
                   {| project := "proj";
                      respond := fun _ _ => Rows [[("x", Int 2)]; [("x", Int 1)]];
                      calls := [] |} stub_dataset)
                [] ∅ {["n" := "x"]} PyNone) PyNone)) PyNone)
  = Ok "SELECT x") by (vm_compute; reflexivity).
  split; [exact H|].
  exact (proj2 (collect_returns_rows_of_engine _ _ _ _ H)).
Defined.




(** X13: [create_table] does not render its query: whatever the text,
    braces included, the one call made is the query with this text and
    the dataset of the manager as the default dataset, without a
    destination; [remove_dataset] makes one call, the deletion of the
    dataset with its contents. Neither changes anything else. *)
Theorem create_table_and_remove_dataset_calls
    (self : PartitionedDatasetManager.t) (create_query : string) :
  let cl := client_of self in
  let dataset :=
    DatasetManager.dataset (TemplatedDatasetManager.dataset_manager (templated self)) in
  let ddl :=
    Query create_query
      (Some {| use_legacy_sql := Some false; allow_large_results := None;
               destination := None; write_disposition := None;
               default_dataset := Some (full_dataset_id dataset) |}) in
  (submitted cl (client_of (after (CreateTable create_query) self)) = [ddl]
   /\ fst (perform (CreateTable create_query) self)
      = match respond cl (calls cl) ddl with
        | Failed msg => Raise (JobError msg)
        | Rows _ => Ok tt
        end
   /\ aliases (after (CreateTable create_query) self) = aliases self)
  /\ (submitted cl (client_of (after RemoveDataset self))
      = [DeleteDataset dataset true true]
      /\ aliases (after RemoveDataset self) = aliases self).
Proof.
  intros cl dataset ddl. subst cl dataset ddl.
  unfold after, perform, PartitionedDatasetManager.create_table,
    PartitionedDatasetManager.remove_dataset, PartitionedDatasetManager.inner, zoom,
    TemplatedDatasetManager.create_table, TemplatedDatasetManager.remove_dataset,
    TemplatedDatasetManager.inner, zoom, DatasetManager.create_table,
    DatasetManager.remove_dataset, bind, gets, DatasetManager.client, zoom,
    BigQuery.query, BigQuery.request, client_of, templated, aliases.
  split.
  - destruct (respond _ _ (Query _ _)); simpl; split_and!; try done;
      by apply submitted_app.
  - destruct (respond _ _ (DeleteDataset _ _ _)); simpl; split_and!; try done;
      by apply submitted_app.
Qed.

(** ** How many calls a method makes *)

Section CallsWithin.

Context {S : Type} (client : S -> Client).

Lemma adds_nothing (cl : Client) : adds_at_most 0 0 cl cl.
Proof. exists []. by rewrite app_nil_r. Qed.

Lemma adds_weaken (n w n' w' : nat) (cl cl' : Client) :
  n <= n' -> w <= w' -> adds_at_most n w cl cl' -> adds_at_most n' w' cl cl'.
Proof. intros Hn Hw (new & H & H1 & H2). exists new. split_and!; [done|lia..]. Qed.

Lemma adds_trans (n1 w1 n2 w2 : nat) (a b c : Client) :
  adds_at_most n1 w1 a b -> adds_at_most n2 w2 b c ->
  adds_at_most (n1 + n2) (w1 + w2) a c.
Proof.
  intros (new1 & H1 & Hn1 & Hw1) (new2 & H2 & Hn2 & Hw2).
  exists (new1 ++ new2). split_and!.
  - by rewrite H2, H1, app_assoc.
  - rewrite length_app. lia.
  - rewrite writes_app, length_app. lia.
Qed.

Lemma within_pure {A : Type} (m : M S A) :
  (forall s, snd (m s) = s) -> calls_within client 0 0 m.
Proof. intros H s. rewrite H. apply adds_nothing. Qed.

Lemma within_modify (f : S -> S) :
  (forall s, client (f s) = client s) -> calls_within client 0 0 (modify f).
Proof. intros H s. simpl. rewrite H. apply adds_nothing. Qed.

Lemma within_weaken {A : Type} (n w n' w' : nat) (m : M S A) :
  n <= n' -> w <= w' -> calls_within client n w m -> calls_within client n' w' m.
Proof. intros Hn Hw H s. eapply adds_weaken; [done..|apply H]. Qed.

Lemma within_bind {A B : Type} (n1 w1 n2 w2 : nat) (m : M S A) (k : A -> M S B) :
  calls_within client n1 w1 m ->
  (forall a, calls_within client n2 w2 (k a)) ->
  calls_within client (n1 + n2) (w1 + w2) (bind m k).
Proof.
  intros Hm Hk s. unfold bind. specialize (Hm s).
  destruct (m s) as [[a|e] s']; simpl in *.
  - eapply adds_trans; [exact Hm | apply Hk].
  - eapply adds_weaken; [| |exact Hm]; lia.
Qed.

Lemma within_zoom {T A : Type} (client' : T -> Client) (n w : nat)
    (get : S -> T) (set : T -> S -> S) (m : M T A) :
  (forall s, client s = client' (get s)) ->
  (forall s t, client (set t s) = client' t) ->
  calls_within client' n w m -> calls_within client n w (zoom get set m).
Proof.
  intros Hget Hset Hm s. unfold zoom. specialize (Hm (get s)).
  destruct (m (get s)) as [r t]. simpl in *. by rewrite Hget, Hset.
Qed.

End CallsWithin.

Lemma request_within (c : call) : calls_within id 1 1 (BigQuery.request c).
Proof.
  intros cl. unfold BigQuery.request.
  assert (H : adds_at_most 1 1 cl (BigQuery.record c cl)).
  { exists [c]. split_and!; [done|simpl; lia|].
    unfold writes. simpl. destruct (BigQuery.is_write c); simpl; lia. }
  by destruct (respond cl (calls cl) c).
Qed.

Lemma request_within_read (c : call) :
  BigQuery.is_write c = false -> calls_within id 1 0 (BigQuery.request c).
Proof.
  intros Hc cl. unfold BigQuery.request.
  assert (H : adds_at_most 1 0 cl (BigQuery.record c cl)).
  { exists [c]. split_and!; [done|simpl; lia|].
    unfold writes. simpl. rewrite Hc. simpl. lia. }
  by destruct (respond cl (calls cl) c).
Qed.

Lemma dataset_manager_client_within {A : Type} (n w : nat) (m : M Client A) :
  calls_within id n w m ->
  calls_within DatasetManager.bigquery_client n w (DatasetManager.client m).
Proof. by apply within_zoom. Qed.

Lemma write_within (table_id sql mode : string) :
  calls_within DatasetManager.bigquery_client 1 1
    (DatasetManager.write table_id sql mode).
Proof.
  unfold DatasetManager.write, BigQuery.query.
  apply (within_bind _ 1 1 0 0).
  - apply dataset_manager_client_within, request_within.
  - intros _. by apply within_pure.
Qed.

Lemma table_exists_within (table_name : string) :
  calls_within DatasetManager.bigquery_client 1 0
    (DatasetManager.table_exists table_name).
Proof.
  unfold DatasetManager.table_exists, BigQuery.query.
  apply (within_bind _ 0 0 1 0); [by apply within_pure|intros d].
  apply (within_bind _ 0 0 1 0); [by apply within_pure|intros q].
  apply (within_bind _ 1 0 0 0); [|intros rs; by apply within_pure].
  by apply dataset_manager_client_within, request_within_read.
Qed.

Lemma table_exists_or_error_within (table_id : string) :
  calls_within DatasetManager.bigquery_client 1 0
    (DatasetManager.table_exists_or_error table_id).
Proof.
  unfold DatasetManager.table_exists_or_error.
  apply (within_bind _ 0 0 1 0); [by apply within_pure|intros n].
  apply (within_bind _ 1 0 0 0); [apply table_exists_within|intros b].
  destruct b; simpl; [by apply within_pure|].
  apply (within_bind _ 0 0 0 0); [by apply within_pure|intros msg].
  by apply within_pure.
Qed.

Lemma checked_write_within (table_id sql mode : string) :
  calls_within DatasetManager.bigquery_client 2 1
    (bind (DatasetManager.table_exists_or_error table_id)
       (fun _ => DatasetManager.write table_id sql mode)).
Proof.
  apply (within_bind _ 1 0 1 1);
    [apply table_exists_or_error_within | intros _; apply write_within].
Qed.

Lemma templated_inner_within {A : Type} (n w : nat) (m : M DatasetManager.t A) :
  calls_within DatasetManager.bigquery_client n w m ->
  calls_within
    (fun t => DatasetManager.bigquery_client (TemplatedDatasetManager.dataset_manager t))
    n w (TemplatedDatasetManager.inner m).
Proof. by apply within_zoom. Qed.

Lemma templated_write_within (n w : nat) (write_callable : TemplatedDatasetManager.writer)
    (table_name sql : string) (custom_run_datetime : pyval) :
  (forall t q, calls_within DatasetManager.bigquery_client n w (write_callable t q)) ->
  calls_within
    (fun t => DatasetManager.bigquery_client (TemplatedDatasetManager.dataset_manager t))
    n w
    (TemplatedDatasetManager.write write_callable table_name sql custom_run_datetime).
Proof.
  intros H. unfold TemplatedDatasetManager.write.
  apply (within_bind _ 0 0 n w); [by apply within_pure|intros t].
  apply (within_bind _ 0 0 n w); [by apply within_pure|intros v].
  apply (within_bind _ 0 0 n w); [by apply within_pure|intros r].
  apply templated_inner_within, H.
Qed.

Lemma partitioned_inner_within {A : Type} (n w : nat)
    (m : M TemplatedDatasetManager.t A) :
  calls_within
    (fun t => DatasetManager.bigquery_client (TemplatedDatasetManager.dataset_manager t))
    n w m ->
  calls_within client_of n w (PartitionedDatasetManager.inner m).
Proof. by apply within_zoom. Qed.

Lemma partitioned_write_within (n w : nat)
    (write_callable : PartitionedDatasetManager.writer)
    (table_name sql : string) (partitioned : bool) (custom_run_datetime : pyval) :
  (forall t q c,
     calls_within
       (fun t => DatasetManager.bigquery_client
                   (TemplatedDatasetManager.dataset_manager t))
       n w (write_callable t q c)) ->
  calls_within client_of n w
    (PartitionedDatasetManager._write write_callable table_name sql partitioned
       custom_run_datetime).
Proof.
  intros H s. rewrite partitioned_write_run.
  exact (partitioned_inner_within n w _ (H _ _ _) s).
Qed.

Lemma read_operation_within (o : operation) :
  is_write_operation o = false -> calls_within client_of 1 0 (perform o).
Proof.
  destruct o as [n q p c|n q p c|n q c|q c|q| |n|]; try done; intros _;
    unfold perform, discard.
  - apply (within_bind _ 1 0 0 0); [|intros rs; by apply within_pure].
    apply partitioned_inner_within. unfold TemplatedDatasetManager.collect.
    apply (within_bind _ 0 0 1 0); [by apply within_pure|intros v].
    apply (within_bind _ 0 0 1 0); [by apply within_pure|intros r].
    apply templated_inner_within. unfold DatasetManager.collect, BigQuery.query.
    by apply dataset_manager_client_within, request_within_read.
  - apply partitioned_inner_within, templated_inner_within.
    unfold DatasetManager.create_table, BigQuery.query.
    apply (within_bind _ 0 0 1 0); [by apply within_pure|intros d].
    apply (within_bind _ 1 0 0 0); [|intros rs; by apply within_pure].
    by apply dataset_manager_client_within, request_within_read.
  - apply partitioned_inner_within, templated_inner_within.
    unfold DatasetManager.remove_dataset.
    apply (within_bind _ 0 0 1 0); [by apply within_pure|intros d].
    apply (within_bind _ 1 0 0 0); [|intros rs; by apply within_pure].
    by apply dataset_manager_client_within, request_within_read.
  - apply (within_bind _ 1 0 0 0); [|intros rs; by apply within_pure].
    apply partitioned_inner_within, templated_inner_within, table_exists_within.
  - apply (within_bind _ 0 0 1 0); [by apply within_pure|intros rs].
    eapply within_weaken; [| |by apply within_pure]; lia.
Qed.

Lemma write_operation_within (o : operation) : calls_within client_of 2 1 (perform o).
Proof.
  destruct (is_write_operation o) eqn:Ho.
  - destruct o as [n q p c|n q p c|n q c|q c|q| |n|]; try done; unfold perform.
    + apply partitioned_write_within. intros t q' c'.
      apply templated_write_within. intros t' q''. apply checked_write_within.
    + apply partitioned_write_within. intros t q' c'.
      apply templated_write_within. intros t' q''. apply checked_write_within.
    + apply partitioned_write_within. intros t q' c'.
      unfold TemplatedDatasetManager.write_tmp.
      apply (within_bind _ 0 0 2 1); [by apply within_modify|intros _].
      apply templated_write_within. intros t' q''.
      eapply within_weaken; [| |apply write_within]; lia.
  - eapply within_weaken; [| |by apply read_operation_within]; lia.
Qed.

(** X14: a call on the manager makes at most two calls to the client,
    of which at most one submits a write; a call other than
    [write_truncate], [write_append] and [write_tmp] makes at most one
    call to the client and submits no write. *)
Theorem calls_of_an_operation (o : operation) (self : PartitionedDatasetManager.t) :
  (length (submitted (client_of self) (client_of (after o self))) <= 2
   /\ length (writes_in o self) <= 1)
  /\ (is_write_operation o = false ->
      length (submitted (client_of self) (client_of (after o self))) <= 1
      /\ writes_in o self = []).
Proof.
  split.
  - destruct (write_operation_within o self) as (new & H & Hn & Hw).
    unfold writes_in, after. by rewrite (submitted_app _ _ _ H).
  - intros Ho. destruct (read_operation_within o Ho self) as (new & H & Hn & Hw).
    unfold writes_in, after. rewrite (submitted_app _ _ _ H). split; [done|].
    destruct (writes new); [done | simpl in Hw; lia].
Qed.

Lemma calls_of_an_operation_witness :
  is_write_operation (Collect "SELECT 1" PyNone) = false
  /\ writes_in (Collect "SELECT 1" PyNone)
       (stub_session [] false (PyStr "2020-01-01") [] ∅ ∅) = [].
Proof.
  split; [reflexivity|].
  exact (proj2 (proj2 (calls_of_an_operation (Collect "SELECT 1" PyNone)
                         (stub_session [] false (PyStr "2020-01-01") [] ∅ ∅))
                  eq_refl)).
Defined.

(** ** Run datetimes *)

(** X15: an empty [custom_run_datetime] is an absent one: each call
    does with [''] what it does with [None], to the outcome and to the
    manager. *)
Theorem empty_custom_run_datetime_is_none
    (self : PartitionedDatasetManager.t) (table_name sql : string) (partitioned : bool) :
  perform (WriteTruncate table_name sql partitioned (PyStr "")) self
  = perform (WriteTruncate table_name sql partitioned PyNone) self
  /\ perform (WriteAppend table_name sql partitioned (PyStr "")) self
     = perform (WriteAppend table_name sql partitioned PyNone) self
  /\ perform (WriteTmp table_name sql (PyStr "")) self
     = perform (WriteTmp table_name sql PyNone) self
  /\ perform (Collect sql (PyStr "")) self = perform (Collect sql PyNone) self.
Proof. split_and!; reflexivity. Qed.

Lemma take_filter_length {A : Type} (P : A -> Prop) `{!forall x, Decision (P x)}
    (n : nat) (l : list A) :
  length (filter P (take n l)) <= n.
Proof.
  etrans; [apply length_filter|]. rewrite length_take. lia.
Qed.

Lemma string_of_list_length (l : list ascii) :
  String.length (string_of_list_ascii l) = length l.
Proof. induction l as [|c l IH]; simpl; [done | by rewrite IH]. Qed.

Lemma has_char_of_list (d : ascii) (l : list ascii) :
  Str.has_char d (string_of_list_ascii l) = true <-> d ∈ l.
Proof.
  induction l as [|c l IH]; simpl.
  - split; [done | by intros ?%elem_of_nil].
  - rewrite orb_true_iff, IH, is_char_true, elem_of_cons.
    split; (intros [->|H]; [by left | by right]).
Qed.

Lemma partition_as_filter (r : string) :
  get_partition_from_run_datetime_or_none (PyStr r)
  = PyStr (string_of_list_ascii
             (filter (fun c => c <> "-"%char) (take 10 (list_ascii_of_string r)))).
Proof.
  unfold get_partition_from_run_datetime_or_none.
  by rewrite replace_char_by_nothing, slice_to_take.
Qed.

Lemma list_of_append (a b : string) :
  list_ascii_of_string (a +:+ b) = list_ascii_of_string a ++ list_ascii_of_string b.
Proof.
  induction a as [|c a IH]; [done|]. rewrite append_cons. simpl. by rewrite IH.
Qed.

Lemma list_of_string_length (s : string) :
  length (list_ascii_of_string s) = String.length s.
Proof. induction s as [|c s IH]; simpl; [done | by rewrite IH]. Qed.

(** X16: the partition of a run datetime has no dash and at most ten
    characters, and depends on the first ten characters only: what
    follows the date, the time of day for one, changes nothing. *)
Theorem partition_of_any_string (r : string) :
  exists p : string,
    get_partition_from_run_datetime_or_none (PyStr r) = PyStr p
    /\ Str.has_char "-" p = false
    /\ String.length p <= 10
    /\ forall date rest : string,
         String.length date = 10 ->
         r = date +:+ rest ->
         get_partition_from_run_datetime_or_none (PyStr date) = PyStr p.
Proof.
  eexists. split; [apply partition_as_filter|]. split_and!.
  - apply not_true_iff_false. intros H%has_char_of_list.
    apply list_elem_of_filter in H as [H _]. by apply H.
  - rewrite string_of_list_length. apply take_filter_length.
  - intros date rest Hd ->. rewrite partition_as_filter. do 3 f_equal.
    rewrite list_of_append, take_app_le by (rewrite list_of_string_length; lia).
    rewrite <- (list_of_string_length date) in Hd. by rewrite <- Hd, !firstn_all.
Qed.

Lemma partition_of_any_string_witness :
  String.length "2020-01-01" = 10
  /\ "2020-01-01 10:00:00" = "2020-01-01" +:+ " 10:00:00"
  /\ get_partition_from_run_datetime_or_none (PyStr "2020-01-01")
     = get_partition_from_run_datetime_or_none (PyStr "2020-01-01 10:00:00").
Proof.
  split; [reflexivity|]. split; [reflexivity|].
  destruct (partition_of_any_string "2020-01-01 10:00:00") as (p & Hp & _ & _ & H).
  rewrite Hp. exact (H "2020-01-01" " 10:00:00" eq_refl eq_refl).
Defined.

(** X17: on a manager whose partition is [None], a partitioned call
    without a [custom_run_datetime] that gives a partition appends
    [$None] to the table name. *)
Theorem partition_none_is_appended_as_text
    (self : PartitionedDatasetManager.t)
    (write_callable : PartitionedDatasetManager.writer)
    (table_name sql : string) (custom_run_datetime : pyval) :
  PartitionedDatasetManager.partition self = PyNone ->
  truthy (get_partition_from_run_datetime_or_none custom_run_datetime) = false ->
  PartitionedDatasetManager._write write_callable table_name sql true
    custom_run_datetime self
  = PartitionedDatasetManager.inner
      (write_callable (table_name +:+ "$None") sql custom_run_datetime) self.
Proof.
  intros Hp Hc. rewrite partitioned_write_run. unfold py_or. by rewrite Hc, Hp.
Qed.

Lemma partition_none_is_appended_as_text_witness :
  PartitionedDatasetManager.partition (stub_session ["orders"] false PyNone [] ∅ ∅)
  = PyNone
  /\ truthy (get_partition_from_run_datetime_or_none PyNone) = false
  /\ PartitionedDatasetManager._write TemplatedDatasetManager.write_truncate
       "orders" "SELECT 1" true PyNone (stub_session ["orders"] false PyNone [] ∅ ∅)
     = PartitionedDatasetManager.inner
         (TemplatedDatasetManager.write_truncate ("orders" +:+ "$None") "SELECT 1" PyNone)
         (stub_session ["orders"] false PyNone [] ∅ ∅).
Proof.
  assert (Hp : PartitionedDatasetManager.partition
                 (stub_session ["orders"] false PyNone [] ∅ ∅) = PyNone)
    by (vm_compute; reflexivity).
  split; [exact Hp|]. split; [reflexivity|].
  exact (partition_none_is_appended_as_text _ TemplatedDatasetManager.write_truncate
           "orders" "SELECT 1" PyNone Hp eq_refl).
Defined.

(** ** The session over many calls *)

(** X18: whatever calls are made on a manager and whatever they raise,
    its run datetime, partition, external tables, extras, dataset and
    dataset id stay the same, and the calls that the client had
    recorded stay recorded, in their order, before the new ones. *)
Theorem session_is_kept (os : list operation) (self : PartitionedDatasetManager.t) :
  let self' := after_all os self in
  PartitionedDatasetManager.run_datetime_str self'
  = PartitionedDatasetManager.run_datetime_str self
  /\ PartitionedDatasetManager.partition self' = PartitionedDatasetManager.partition self
  /\ TemplatedDatasetManager.external_tables (templated self')
     = TemplatedDatasetManager.external_tables (templated self)
  /\ TemplatedDatasetManager.extras (templated self')
     = TemplatedDatasetManager.extras (templated self)
  /\ session_dataset_id self' = session_dataset_id self
  /\ DatasetManager.dataset (TemplatedDatasetManager.dataset_manager (templated self'))
     = DatasetManager.dataset (TemplatedDatasetManager.dataset_manager (templated self))
  /\ exists new : list call, calls (client_of self') = calls (client_of self) ++ new.
Proof.
  intros self'. subst self'.
  destruct (after_all_keeps_session os self)
    as (Hp & Hx & He & Hr & _ & Hd & Hi & _ & _ & Hc).
  by split_and!.
Qed.

Lemma init_aliases_fold (dm : DatasetManager.t) (names : list string)
    (acc : gmap string string) (k : string) :
  foldl (fun d t => <[t := TemplatedDatasetManager.full_table_id_in dm t]> d) acc names
    !! k
  = if decide (k ∈ names)
    then Some (TemplatedDatasetManager.full_table_id_in dm k)
    else acc !! k.
Proof.
  revert acc. induction names as [|n names IH]; intros acc.
  - by rewrite decide_False by apply not_elem_of_nil.
  - cbn [foldl]. rewrite IH.
    destruct (decide (k ∈ names)) as [Hin|Hnin].
    + by rewrite decide_True by (by right).
    + destruct (decide (k = n)) as [->|Hne].
      * rewrite decide_True by left. by rewrite lookup_insert_eq.
      * rewrite decide_False by (by intros [?|?]%elem_of_cons).
        by rewrite lookup_insert_ne.
Qed.

(** X19: a templated manager is built with one alias for each name of
    the list of internal tables and no other: the alias of a name is
    the dataset id, a dot and the name. *)
Theorem init_registers_internal_tables
    (dm : DatasetManager.t) (names : list string)
    (external extras : gmap string string) (run_datetime : pyval) (k : string) :
  TemplatedDatasetManager.internal_tables
    (TemplatedDatasetManager.__init__ dm names external extras run_datetime) !! k
  = if decide (k ∈ names)
    then Some (DatasetManager.dataset_id dm +:+ "." +:+ k)
    else None.
Proof.
  unfold TemplatedDatasetManager.__init__. cbn. rewrite init_aliases_fold.
  unfold TemplatedDatasetManager.full_table_id_in. rewrite lookup_empty.
  destruct (decide (k ∈ names)); [|done]. by rewrite append_assoc.
Qed.

Lemma alias_kept (name : string) (o : operation) (self : PartitionedDatasetManager.t) :
  Str.has_char "$" name = false ->
  aliases self !! name
  = Some (TemplatedDatasetManager.create_full_table_id (templated self) name) ->
  aliases (after o self) !! name
  = Some (TemplatedDatasetManager.create_full_table_id (templated (after o self)) name).
Proof.
  intros Hn H.
  assert (Hid : TemplatedDatasetManager.create_full_table_id (templated (after o self)) name
                = TemplatedDatasetManager.create_full_table_id (templated self) name).
  { unfold TemplatedDatasetManager.create_full_table_id,
      TemplatedDatasetManager.full_table_id_in.
    pose proof (after_dataset_id o self) as Hd. unfold session_dataset_id in Hd.
    by rewrite Hd. }
  rewrite Hid.
  destruct (is_write_tmp o) eqn:Ho.
  - destruct o as [| |n q c| | | | |]; try discriminate Ho.
    rewrite facade_write_tmp_registers.
    destruct (decide (n = name)) as [->|Hne].
    + by rewrite lookup_insert_eq, create_table_id_plain.
    + by rewrite lookup_insert_ne.
  - destruct (perform_keeps_aliases o Ho self) as (_ & _ & _ & _ & Hsame & _).
    unfold aliases_same in Hsame. unfold aliases, after. by rewrite Hsame.
Qed.

(** X20: after [write_tmp] for a table name without a dollar sign, the
    alias of the name is the dataset id, a dot and the name, and stays
    so whatever calls follow, another [write_tmp] for the same name
    included. *)
Theorem write_tmp_alias_is_kept
    (self : PartitionedDatasetManager.t) (table_name sql : string)
    (custom_run_datetime : pyval) (os : list operation) :
  Str.has_char "$" table_name = false ->
  aliases (after_all os (after (WriteTmp table_name sql custom_run_datetime) self))
    !! table_name
  = Some (session_dataset_id self +:+ "." +:+ table_name).
Proof.
  intros Hn.
  set (self1 := after (WriteTmp table_name sql custom_run_datetime) self).
  assert (H1 : aliases self1 !! table_name
               = Some (TemplatedDatasetManager.create_full_table_id
                         (templated self1) table_name)).
  { subst self1. rewrite facade_write_tmp_registers, lookup_insert_eq.
    rewrite create_table_id_plain by done.
    unfold TemplatedDatasetManager.create_full_table_id,
      TemplatedDatasetManager.full_table_id_in.
    pose proof (after_dataset_id (WriteTmp table_name sql custom_run_datetime) self) as Hd.
    unfold session_dataset_id in Hd. by rewrite Hd. }
  assert (Hall : forall os' s,
            aliases s !! table_name
            = Some (TemplatedDatasetManager.create_full_table_id (templated s) table_name) ->
            aliases (after_all os' s) !! table_name
            = Some (TemplatedDatasetManager.create_full_table_id
                      (templated (after_all os' s)) table_name)).
  { induction os' as [|o os' IH]; intros s Hs; [exact Hs|].
    unfold after_all. cbn [foldl]. apply IH. by apply alias_kept. }
  rewrite (Hall os self1 H1).
  unfold TemplatedDatasetManager.create_full_table_id,
    TemplatedDatasetManager.full_table_id_in.
  destruct (after_all_keeps_session
              (WriteTmp table_name sql custom_run_datetime :: os) self)
    as (_ & _ & _ & _ & _ & _ & Hd & _).
  change (after_all (WriteTmp table_name sql custom_run_datetime :: os) self)
    with (after_all os self1) in Hd.
  unfold templated in *. rewrite Hd. unfold session_dataset_id, templated.
  by rewrite append_assoc.
Qed.

Lemma write_tmp_alias_is_kept_witness :
  Str.has_char "$" "staging" = false
  /\ aliases
       (after_all [WriteTmp "staging" "SELECT 2" PyNone; Collect "SELECT 3" PyNone]
          (after (WriteTmp "staging" "SELECT 1" PyNone)
             (stub_session [] false (PyStr "2020-01-01") [] ∅ ∅)))
       !! "staging"
     = Some (session_dataset_id (stub_session [] false (PyStr "2020-01-01") [] ∅ ∅)
             +:+ "." +:+ "staging").
Proof.
  split; [reflexivity|].
  exact (write_tmp_alias_is_kept (stub_session [] false (PyStr "2020-01-01") [] ∅ ∅)
           "staging" "SELECT 1" PyNone
           [WriteTmp "staging" "SELECT 2" PyNone; Collect "SELECT 3" PyNone] eq_refl).
Defined.

(** ** The factory *)

Lemma format_dataset_id (p d : string) :
  Format.format "{project_id}.{dataset_name}"
    (<["project_id" := PyStr p]> {["dataset_name" := PyStr d]})
  = Ok (p +:+ String "." d).
Proof.
  unfold Format.format.
  change "{project_id}.{dataset_name}"
    with (String "{" ("project_id" +:+ String "}"
            ("." +:+ String "{" ("dataset_name" +:+ String "}" "")))).
  rewrite format_field by reflexivity. rewrite lookup_insert_eq.
  rewrite format_text by reflexivity. rewrite format_field by reflexivity.
  rewrite lookup_insert_ne by discriminate. rewrite lookup_singleton_eq.
  simpl. by rewrite append_nil_r.
Qed.

(** X21: when the factory returns a manager, it has made one call to
    the client, the creation of the dataset at the location given and
    with [exists_ok]; the id returned is the dataset id of the manager,
    the partition is the one of the runtime, and the internal tables
    are the names given, each under the dataset id. *)
Theorem factory_builds_session
    (client : Client) (runtime : pyval) (name : string)
    (internal : list string) (external extras : gmap string string)
    (loc id : string) (self : PartitionedDatasetManager.t) :
  create_dataset_manager client runtime name internal external extras loc
  = Ok (id, self) ->
  session_dataset_id self = id
  /\ PartitionedDatasetManager.partition self
     = get_partition_from_run_datetime_or_none runtime
  /\ PartitionedDatasetManager.run_datetime_str self = runtime
  /\ TemplatedDatasetManager.external_tables (templated self) = external
  /\ TemplatedDatasetManager.extras (templated self) = extras
  /\ (forall k : string,
        aliases self !! k
        = if decide (k ∈ internal) then Some (id +:+ "." +:+ k) else None)
  /\ exists dataset : Dataset,
       calls (client_of self) = calls client ++ [CreateDataset dataset true]
       /\ location dataset = loc
       /\ DatasetManager.dataset
            (TemplatedDatasetManager.dataset_manager (templated self)) = dataset.
Proof.
  unfold create_dataset_manager, create_dataset, bind, gets, lift.
  rewrite format_dataset_id.
  destruct (Dataset_of_id _) as [d|e]; [|done].
  unfold BigQuery.request, ret.
  destruct (respond client (calls client) _); [done|].
  intros [= <- <-]. split_and!; try done.
  - intros k. unfold aliases, templated. cbn.
    rewrite init_aliases_fold, lookup_empty.
    unfold TemplatedDatasetManager.full_table_id_in. cbn.
    destruct (decide (k ∈ internal)); [|done]. by rewrite append_assoc.
  - by eexists.
Qed.

Lemma factory_builds_session_witness :
  create_dataset_manager (stub_client [] false) (PyStr "2020-01-01") "ds" ["users"]
    ∅ ∅ "EU"
  = Ok ("proj.ds", stub_session [] false (PyStr "2020-01-01") ["users"] ∅ ∅)
  /\ aliases (stub_session [] false (PyStr "2020-01-01") ["users"] ∅ ∅) !! "users"
     = Some "proj.ds.users".
Proof.
  assert (H : create_dataset_manager (stub_client [] false) (PyStr "2020-01-01") "ds"
                ["users"] ∅ ∅ "EU"
              = Ok ("proj.ds", stub_session [] false (PyStr "2020-01-01") ["users"] ∅ ∅))
    by (vm_compute; reflexivity).
  split; [exact H|].
  exact (proj1 (proj2 (proj2 (proj2 (proj2 (proj2
           (factory_builds_session _ _ _ _ _ _ _ _ _ H)))))) "users").
Defined.

Lemma replace_char_absent (c : ascii) (new s : string) :
  Str.has_char c s = false -> Str.replace (String c "") new s = s.
Proof.
  unfold Str.replace. induction s as [|a s IH]; [done|].
  cbn [Str.has_char]. intros [Ha Hs]%orb_false_iff.
  cbn [Str.replace_from]. rewrite prefix_one, Ha. by rewrite (IH Hs).
Qed.

Lemma replace_char_once (c : ascii) (new a b : string) :
  Str.has_char c a = false ->
  Str.has_char c b = false ->
  Str.replace (String c "") new (a +:+ String c b) = a +:+ new +:+ b.
Proof.
  intros Ha Hb. induction a as [|x a IH].
  - rewrite !append_nil_l.
    change (String c b) with (String c "" +:+ b).
    by rewrite replace_occurrence, (replace_char_absent _ _ _ Hb).
  - cbn [Str.has_char] in Ha. apply orb_false_iff in Ha as [Hx Ha].
    rewrite !append_cons. unfold Str.replace in *.
    cbn [Str.replace_from]. rewrite prefix_one, Hx. by rewrite (IH Ha).
Qed.

Lemma simple_name_chars (s : string) :
  simple_name s = true ->
  Str.has_char "." s = false /\ Str.has_char "$" s = false /\ Str.has_char ":" s = false.
Proof.
  unfold simple_name. intros [[H1 H2]%plain_part_chars H3%negb_true_iff]%andb_true_iff.
  by split_and!.
Qed.

(** X22: for a project and a dataset name without a dot, a colon or a
    dollar sign, the factory raises what the client raises when the
    creation of the dataset fails, and otherwise returns the id
    [project.dataset_name] with the partitioned manager built over the
    templated manager, built over the manager of the dataset. *)
Theorem factory_dataset_id
    (client : Client) (runtime : pyval) (name : string)
    (internal : list string) (external extras : gmap string string) (loc : string) :
  simple_name (project client) = true ->
  simple_name name = true ->
  let dataset :=
    {| dataset_project := project client; dataset_name := name; location := loc |} in
  create_dataset_manager client runtime name internal external extras loc
  = match respond client (calls client) (CreateDataset dataset true) with
    | Failed msg => Raise (JobError msg)
    | Rows _ =>
        Ok (project client +:+ "." +:+ name,
            PartitionedDatasetManager.__init__
              (TemplatedDatasetManager.__init__
                 (DatasetManager.__init__
                    (BigQuery.record (CreateDataset dataset true) client) dataset)
                 internal external extras runtime)
              (get_partition_from_run_datetime_or_none runtime))
    end.
Proof.
  intros (Hp1 & Hp2 & Hp3)%simple_name_chars (Hn1 & Hn2 & Hn3)%simple_name_chars dataset.
  unfold create_dataset_manager, create_dataset, bind, gets, lift.
  rewrite format_dataset_id. unfold Dataset_of_id.
  rewrite (split_at_separator _ _ _ Hp1), (split_without_separator _ _ Hn1).
  unfold set_location. cbn [dataset_project dataset_name]. fold dataset.
  unfold BigQuery.request, ret.
  assert (Hid : Str.replace ":" "." (full_dataset_id dataset)
                = project client +:+ "." +:+ name).
  { unfold full_dataset_id. subst dataset. cbn [dataset_project dataset_name].
    change (project client +:+ ":" +:+ name) with (project client +:+ String ":" name).
    by rewrite (replace_char_once _ _ _ _ Hp3 Hn3). }
  destruct (respond client (calls client) (CreateDataset dataset true)); [done|].
  by rewrite Hid.
Qed.

Lemma factory_dataset_id_witness :
  simple_name (project (stub_client [] false)) = true
  /\ simple_name "ds" = true
  /\ exists self,
       create_dataset_manager (stub_client [] false) (PyStr "2020-01-01") "ds" []
         ∅ ∅ "EU" = Ok ("proj" +:+ "." +:+ "ds", self).
Proof.
  split; [reflexivity|]. split; [reflexivity|].
  eexists.
  exact (factory_dataset_id (stub_client [] false) (PyStr "2020-01-01") "ds" []
           ∅ ∅ "EU" eq_refl eq_refl).
Defined.

(** ** A partitioned write from end to end *)


